(** * SmartScraper: fetch, block detection, extraction

    A shallow embedding of [src/scraper.py] (class [SmartScraper]) and the
    properties of its three-stage pipeline.

    Python values are modelled as follows.
    - [str] is [string], one [ascii] per character: page text is covered
      as long as its characters lie in the 8-bit range, where [lower]
      below is Python's [str.lower].  Text literals of the source are
      kept as they are in the file (their bytes).
    - [int] status codes are [Z].
    - A parsed JSON value is [json]; a [dict] is a [gmap string json].
    - Awaited calls to the outside (HTTP GET, chat completion, the debug
      file, logging) are operations of the monad [M]: each appends an
      [event] to the trace and takes its answer from a [world].
    - An exception is a value [exn]; a computation ends in [Ret] or
      [Raise].  Only [Exception] subclasses are modelled, which is what
      [except Exception] catches. *)

From Stdlib Require Import ZArith String Ascii List Lia Bool.
From stdpp Require Import gmap strings list fin_maps.

Set Warnings "-register-all".
Local Open Scope string_scope.
Local Open Scope stdpp_scope.
Local Open Scope list_scope.

(** ** Strings *)

Module Str.

Definition nl : string := String (ascii_of_nat 10) "".
Definition dq : string := String (ascii_of_nat 34) "".

(** [str.lower] on one character of the 8-bit range: A-Z, and the
    accented capitals 192..222 except the multiplication sign 215. *)
Definition lower_char (c : ascii) : ascii :=
  let n := nat_of_ascii c in
  if ((65 <=? n) && (n <=? 90)
      || (192 <=? n) && (n <=? 222) && negb (n =? 215))%nat
  then ascii_of_nat (n + 32) else c.

Fixpoint lower (s : string) : string :=
  match s with
  | EmptyString => EmptyString
  | String c s' => String (lower_char c) (lower s')
  end.

Fixpoint starts_with (p s : string) : bool :=
  match p, s with
  | EmptyString, _ => true
  | String a p', String b s' => if Ascii.eqb a b then starts_with p' s' else false
  | String _ _, EmptyString => false
  end.

(** [needle in s] *)
Fixpoint contains (needle s : string) : bool :=
  starts_with needle s ||
  match s with
  | EmptyString => false
  | String _ s' => contains needle s'
  end.

(** [s[:n]] *)
Fixpoint slice_to (n : nat) (s : string) : string :=
  match n, s with
  | S n', String c s' => String c (slice_to n' s')
  | _, _ => EmptyString
  end.

(** [sep.join(l)] *)
Fixpoint join (sep : string) (l : list string) : string :=
  match l with
  | [] => EmptyString
  | [x] => x
  | x :: rest => x +:+ sep +:+ join sep rest
  end.

End Str.

(** ** JSON values, as [json.loads] builds them *)

(** A Python [float]: an IEEE double, written as its exact value. *)
Inductive pyfloat :=
| FZero (neg : bool)
| FFinite (neg : bool) (m : positive) (e : Z)   (* +- m * 2^e *)
| FInf (neg : bool)
| FNaN.

Inductive json :=
| JNull
| JBool (b : bool)
| JInt (z : Z)
| JFloat (f : pyfloat)
| JStr (s : string)
| JArr (l : list json)
| JObj (d : gmap string json).

(** [bool(v)] for [v] a parsed value; [None] (a missing key under
    [dict.get]) is falsy. *)
Definition truthy (v : option json) : bool :=
  match v with
  | None | Some JNull => false
  | Some (JBool b) => b
  | Some (JInt z) => negb (z =? 0)%Z
  | Some (JFloat (FZero _)) => false
  | Some (JFloat _) => true
  | Some (JStr s) => negb (String.eqb s "")
  | Some (JArr l) => match l with [] => false | _ => true end
  | Some (JObj d) => negb (bool_decide (d = ∅))
  end.

(** [type(v).__name__] *)
Definition type_name (v : json) : string :=
  match v with
  | JNull => "NoneType"
  | JBool _ => "bool"
  | JInt _ => "int"
  | JFloat _ => "float"
  | JStr _ => "str"
  | JArr _ => "list"
  | JObj _ => "dict"
  end.

(** ** Exceptions, log records, events *)

Inductive exn := Exn (cls msg : string).

Definition AttributeError (v : json) (attr : string) : exn :=
  Exn "AttributeError"
      ("'" +:+ type_name v +:+ "' object has no attribute '" +:+ attr +:+ "'").

Inductive level := ERROR | INFO.

(** One constructor per [logging] call of the source, carrying the values
    its f-string interpolates. *)
Inductive log_record :=
| RequestFailed (e : exn)               (* "Request failed: {str(e)}" *)
| BlockingDetected (status_code : Z)    (* "⛔ BLOCKING DETECTED! Status code: {status_code}" *)
| LLMDetectedBlocking (reason : option json)  (* "🤖 LLM detected blocking: {result.get('reason')}" *)
| LLMBlockingCheckError (e : exn)       (* "Error in LLM blocking check: {str(e)}" *)
| LLMExtractionError (e : exn)          (* "LLM extraction error: {str(e)}" *)
| ScrapingBlocked                       (* "Scraping blocked by website" *)
| SavedHTMLResponse.                    (* "💾 Saved HTML response to 'last_response.html'" *)

Definition headers := list (string * string).

Inductive event :=
| EvGet (url : string) (hd : headers)            (* session.get(url, headers=hd) *)
| EvCompletion (model content : string)          (* chat.completions.create *)
| EvSoup (html : string)                         (* BeautifulSoup(html, 'html.parser') *)
| EvOpenWrite (path content : string)            (* open(path, 'w') and f.write(content) *)
| EvLog (lvl : level) (r : log_record).

(** ** The outside world *)

Record world := {
  (** the answer to the GET: [response.text()] and [response.status],
      or the exception of the transport *)
  transport : string -> headers -> exn + (string * Z);
  (** [response.choices[0].message.content] of the completion for a model
      and a user message, or the exception of the call; a response whose
      content cannot be read or is not text raises inside the same [try]
      blocks and counts as an exception here *)
  completion : string -> string -> exn + string;
  (** writing a file: [None] when it succeeds *)
  filesystem : string -> string -> option exn;
  (** [datetime.now().isoformat()] *)
  clock : string;
  (** the draw of [random.choice] *)
  rng : nat
}.

(** Libraries the source calls as pure functions. *)
Class Libraries := {
  (** [json.loads] *)
  json_loads : string -> exn + json;
  (** [soup.find_all(class_=...)] on the parsed page with its script and
      style subtrees removed: the serialisation [str(elem)] of every
      element one of whose classes contains, lowered, one of the terms *)
  soup_find_all : list string -> string -> exn + list string;
  (** [soup.find(class_=...)], the first such element if any *)
  soup_find : list string -> string -> exn + option string
}.

(** ** The effect monad *)

Inductive outcome (A : Type) :=
| Ret (a : A)
| Raise (e : exn).
Arguments Ret {A} a.
Arguments Raise {A} e.

Definition M (A : Type) : Type := world -> outcome A * list event.

Definition ret {A} (a : A) : M A := fun _ => (Ret a, []).
Definition raise {A} (e : exn) : M A := fun _ => (Raise e, []).

Definition bind {A B} (m : M A) (k : A -> M B) : M B :=
  fun w =>
    match m w with
    | (Ret a, t1) => let '(o, t2) := k a w in (o, t1 ++ t2)
    | (Raise e, t1) => (Raise e, t1)
    end.

(** [try: m  except Exception as e: h e] *)
Definition try_except {A} (m : M A) (h : exn -> M A) : M A :=
  fun w =>
    match m w with
    | (Ret a, t1) => (Ret a, t1)
    | (Raise e, t1) => let '(o, t2) := h e w in (o, t1 ++ t2)
    end.

Definition of_result {A} (r : exn + A) : M A :=
  match r with
  | inl e => raise e
  | inr a => ret a
  end.

Declare Scope py_scope.
Delimit Scope py_scope with py.
Notation "x <- m ;; k" := (bind m (fun x => k))
  (at level 100, m at next level, right associativity) : py_scope.
Notation "m ;;; k" := (bind m (fun _ => k))
  (at level 100, right associativity) : py_scope.
Local Open Scope py_scope.

Definition emit (e : event) : M unit := fun _ => (Ret tt, [e]).

Definition logging (lvl : level) (r : log_record) : M unit := emit (EvLog lvl r).

Definition session_get (url : string) (hd : headers) : M (string * Z) :=
  fun w =>
    (match transport w url hd with inl e => Raise e | inr a => Ret a end,
     [EvGet url hd]).

Definition chat_completions_create (model content : string) : M string :=
  fun w =>
    (match completion w model content with inl e => Raise e | inr a => Ret a end,
     [EvCompletion model content]).

Definition open_write (path content : string) : M unit :=
  fun w =>
    (match filesystem w path content with Some e => Raise e | None => Ret tt end,
     [EvOpenWrite path content]).

Definition datetime_now_isoformat : M string := fun w => (Ret (clock w), []).

(** [random.choice(seq)]; an empty sequence raises [IndexError]. *)
Definition random_choice (seq : list string) : M string :=
  fun w =>
    match seq with
    | [] => (Raise (Exn "IndexError" "Cannot choose from an empty sequence"), [])
    | _ => (Ret (nth (rng w mod length seq) seq ""), [])
    end.

(** ** The scraper *)

(** [config.Config] is declared in another module of the repository; the
    one setting the methods read, the deployment name, is a parameter of
    the model. *)
Record Config := {
  AZURE_OPENAI_DEPLOYMENT_NAME : string
}.

(** The attributes [__init__] sets that the methods read.  [llm_client]
    is the [completion] of the world. *)
Record SmartScraper := {
  url : string;
  deployment_name : string;
  user_agents : list string
}.

Definition SmartScraper_init (cfg : Config) (u : string) : SmartScraper :=
  {| url := u;
     deployment_name := AZURE_OPENAI_DEPLOYMENT_NAME cfg;
     user_agents :=
       [ "Mozilla/5.0 (Windows NT 10.0; Win64; x64) AppleWebKit/537.36 (KHTML, like Gecko) Chrome/91.0.4472.124 Safari/537.36";
         "Mozilla/5.0 (Windows NT 10.0; Win64; x64; rv:89.0) Gecko/20100101 Firefox/89.0";
         "Mozilla/5.0 (Macintosh; Intel Mac OS X 10_15_7) AppleWebKit/605.1.15 (KHTML, like Gecko) Version/14.1.1 Safari/605.1.15" ] |}.

(** The instruction of the blocking check (lines 104-111). *)
Definition blocking_prompt : string :=
    "Analyze this HTML response and determine if it shows signs of blocking or anti-bot measures.
            Consider things like:
            - Presence of CAPTCHAs
            - Access denied messages
            - Robot detection messages
            - Unusual redirects
            
            Response format: JSON with keys 'is_blocked' (boolean) and 'reason' (string)".

(** The instruction of the extraction (lines 159-171). *)
Definition extraction_prompt : string :=
    "Extract product information from this HTML. 
            Find the following information:
            - Product name
            - Current price (as a decimal number, e.g., 9.99)
            - Currency symbol or code (e.g., €, EUR)
            - Any promotional text or deals
            
            Important: 
            - Look for price elements with classes containing 'price', 'prijs', 'amount'
            - Price might be formatted as " +:+ Str.dq +:+
    "9.99" +:+ Str.dq +:+
    ", " +:+ Str.dq +:+
    "€9.99" +:+ Str.dq +:+
    ", " +:+ Str.dq +:+
    "9,99 EUR" +:+ Str.dq +:+
    ", or similar
            - Convert comma-separated prices to decimal (e.g., " +:+ Str.dq +:+
    "9,99" +:+ Str.dq +:+
    " → 9.99)
            
            Format the response as JSON with keys: 'name', 'price' (number), 'currency', 'promotion' (null if none)".

(** The twelve spaces that indent the lines of the f-string of [clean_html]. *)
Definition indent : string := "            ".

(** [clean_html] (lines 151-157) from the joined price elements and the
    product section. *)
Definition clean_html_of (price_elements : list string) (product_section : string) : string :=
  Str.nl +:+ indent +:+ "Price-related elements:" +:+
  Str.nl +:+ indent +:+ Str.join " " price_elements +:+
  Str.nl +:+ indent +:+
  Str.nl +:+ indent +:+ "Product section:" +:+
  Str.nl +:+ indent +:+ product_section +:+
  Str.nl +:+ indent.

(** The user message of the blocking check (line 116). *)
Definition blocking_message (response_text : string) : string :=
  blocking_prompt +:+ Str.nl +:+ Str.nl +:+ "First 1000 chars of HTML: "
  +:+ Str.slice_to 1000 response_text.

(** The user message of the extraction (line 176). *)
Definition extraction_message (clean_html : string) : string :=
  extraction_prompt +:+ Str.nl +:+ Str.nl +:+ "HTML content: "
  +:+ Str.slice_to 4000 clean_html.

Definition blocked_statuses : list Z := [403; 429; 503]%Z.

(** The list [blocking_indicators] (lines 91-96). *)
Definition blocking_indicators (response_text : string) (status_code : Z) : list bool :=
  [ bool_decide (status_code ∈ blocked_statuses);
    Str.contains "captcha" (Str.lower response_text);
    Str.contains "access denied" (Str.lower response_text);
    Str.contains "rate limit" (Str.lower response_text) ].

(** [str(soup.find(...))]: the element serialised, or [str(None)]. *)
Definition product_section_of (found : option string) : string :=
  match found with Some s => s | None => "None" end.

(** Python's [any] *)
Definition any (l : list bool) : bool := existsb id l.

(** [result.get(key)]: only a dict has the method. *)
Definition get (result : json) (key : string) : M (option json) :=
  match result with
  | JObj d => ret (d !! key)
  | v => raise (AttributeError v "get")
  end.

Section Scraper.

Context `{Libraries}.

Definition _get_headers (self : SmartScraper) : M headers :=
  ua <- random_choice (user_agents self) ;;
  ret [ ("User-Agent", ua);
        ("Accept", "text/html,application/xhtml+xml,application/xml;q=0.9,*/*;q=0.8");
        ("Accept-Language", "en-US,en;q=0.5");
        ("Accept-Encoding", "gzip, deflate, br");
        ("DNT", "1");
        ("Connection", "keep-alive") ].

Definition _safe_request (self : SmartScraper) : M (option string * Z) :=
  try_except
    (hd <- _get_headers self ;;
     response <- session_get (url self) hd ;;
     ret (Some (fst response), snd response))
    (fun e =>
       logging ERROR (RequestFailed e) ;;;
       ret (None, 500%Z)).

Definition _check_for_blocking (self : SmartScraper)
    (response_text : string) (status_code : Z) : M bool :=
  if any (blocking_indicators response_text status_code) then
    logging ERROR (BlockingDetected status_code) ;;;
    ret true
  else
    try_except
      (content <- chat_completions_create (deployment_name self)
                    (blocking_message response_text) ;;
       result <- of_result (json_loads content) ;;
       is_blocked <- get result "is_blocked" ;;
       if truthy is_blocked then
         reason <- get result "reason" ;;
         logging ERROR (LLMDetectedBlocking reason) ;;;
         ret true
       else ret false)
      (fun e =>
         logging ERROR (LLMBlockingCheckError e) ;;;
         ret false).

(** Lines 141-149: the page is parsed, its script and style subtrees
    removed, and the price elements and the product section selected. *)
Definition reduce (html_content : string) : M (list string * string) :=
  emit (EvSoup html_content) ;;;
  price_elements <-
    of_result (soup_find_all ["price"; "prijs"; "amount"; "bedrag"] html_content) ;;
  found <- of_result (soup_find ["product"; "artikel"; "item"] html_content) ;;
  ret (price_elements, product_section_of found).

Definition _extract_data_with_llm (self : SmartScraper)
    (html_content : string) : M (option (gmap string json)) :=
  try_except
    (sel <- reduce html_content ;;
     let clean_html := clean_html_of (fst sel) (snd sel) in
     content <- chat_completions_create (deployment_name self)
                  (extraction_message clean_html) ;;
     extracted_data <- of_result (json_loads content) ;;
     match extracted_data with
     | JObj d =>
         now <- datetime_now_isoformat ;;
         ret (Some (<["url" := JStr (url self)]> (<["timestamp" := JStr now]> d)))
     | v => raise (AttributeError v "update")
     end)
    (fun e =>
       logging ERROR (LLMExtractionError e) ;;;
       ret None).

Definition scrape (self : SmartScraper) : M (option (gmap string json)) :=
  fetched <- _safe_request self ;;
  match fst fetched with
  | None => ret None
  | Some html_content =>
      blocked <- _check_for_blocking self html_content (snd fetched) ;;
      if blocked then
        logging ERROR ScrapingBlocked ;;;
        ret None
      else
        open_write "last_response.html" html_content ;;;
        logging INFO SavedHTMLResponse ;;;
        _extract_data_with_llm self html_content
  end.

End Scraper.

(** ** Instances of the libraries, for concrete runs *)

Module Lite.

(** [json.loads] on JSON text of 8-bit characters; the values are
    Python's.  An escape [\uXXXX] above [00ff] names a character outside
    the 8-bit range of the model, and such a text is refused.  The
    message of a decode error stands for Python's, which goes on with
    the position of the error. *)

Definition is_ws (c : ascii) : bool :=
  let n := nat_of_ascii c in
  ((n =? 32) || (n =? 9) || (n =? 10) || (n =? 13))%nat.

Definition is_digit (c : ascii) : bool :=
  let n := nat_of_ascii c in ((48 <=? n) && (n <=? 57))%nat.

Definition digit_val (c : ascii) : Z := Z.of_nat (nat_of_ascii c - 48).

Definition hex_val (c : ascii) : option Z :=
  let n := nat_of_ascii c in
  if ((48 <=? n) && (n <=? 57))%nat then Some (Z.of_nat (n - 48))
  else if ((65 <=? n) && (n <=? 70))%nat then Some (Z.of_nat (n - 55))
  else if ((97 <=? n) && (n <=? 102))%nat then Some (Z.of_nat (n - 87))
  else None.

(** The character a one-letter escape stands for. *)
Definition escaped (c : ascii) : option ascii :=
  let n := nat_of_ascii c in
  if ((n =? 34) || (n =? 92) || (n =? 47))%nat then Some c
  else if Ascii.eqb c "b" then Some (ascii_of_nat 8)
  else if Ascii.eqb c "f" then Some (ascii_of_nat 12)
  else if Ascii.eqb c "n" then Some (ascii_of_nat 10)
  else if Ascii.eqb c "r" then Some (ascii_of_nat 13)
  else if Ascii.eqb c "t" then Some (ascii_of_nat 9)
  else None.

Fixpoint skip_ws (s : string) : string :=
  match s with
  | String c s' => if is_ws c then skip_ws s' else s
  | EmptyString => EmptyString
  end.

Fixpoint drop (n : nat) (s : string) : string :=
  match n, s with
  | S n', String _ s' => drop n' s'
  | _, _ => s
  end.

(** The characters of a string literal after its opening quote, and what
    follows the closing quote. *)
Fixpoint scan_string (s : string) : option (string * string) :=
  match s with
  | EmptyString => None
  | String c s' =>
      if Ascii.eqb c (ascii_of_nat 34) then Some (EmptyString, s')
      else if Ascii.eqb c (ascii_of_nat 92) then
        match s' with
        | EmptyString => None
        | String e s'' =>
            if Ascii.eqb e "u" then
              match s'' with
              | String h1 (String h2 (String h3 (String h4 rest))) =>
                  match hex_val h1, hex_val h2, hex_val h3, hex_val h4 with
                  | Some x1, Some x2, Some x3, Some x4 =>
                      let code := (((x1 * 16 + x2) * 16 + x3) * 16 + x4)%Z in
                      if (code <? 256)%Z then
                        match scan_string rest with
                        | Some (body, r) =>
                            Some (String (ascii_of_nat (Z.to_nat code)) body, r)
                        | None => None
                        end
                      else None
                  | _, _, _, _ => None
                  end
              | _ => None
              end
            else
              match escaped e with
              | Some ch =>
                  match scan_string s'' with
                  | Some (body, r) => Some (String ch body, r)
                  | None => None
                  end
              | None => None
              end
        end
      else if (nat_of_ascii c <? 32)%nat then None
      else match scan_string s' with
           | Some (body, rest) => Some (String c body, rest)
           | None => None
           end
  end.

(** The digits at the head of [s], read on from [acc], and their number
    added to [cnt]. *)
Fixpoint scan_digits (acc cnt : Z) (s : string) : Z * Z * string :=
  match s with
  | String c s' =>
      if is_digit c then scan_digits (10 * acc + digit_val c)%Z (cnt + 1)%Z s'
      else (acc, cnt, s)
  | EmptyString => (acc, cnt, s)
  end.

(** [m * 2^e] with the factors 2 moved out of [m]. *)
Fixpoint odd_mantissa (fuel : nat) (m e : Z) : Z * Z :=
  match fuel with
  | O => (m, e)
  | S fuel' => if Z.even m then odd_mantissa fuel' (m / 2)%Z (e + 1)%Z else (m, e)
  end.

(** [float] of a decimal literal: the double nearest to [n * 10^e10],
    ties to the even mantissa, infinite from [2^1024 - 2^970] on. *)
Definition nearest_double (neg : bool) (n e10 : Z) : pyfloat :=
  if (n =? 0)%Z then FZero neg
  else
    let p := (if 0 <=? e10 then n * 10 ^ e10 else n)%Z in
    let q := (if 0 <=? e10 then 1 else 10 ^ (- e10))%Z in
    let t := (Z.log2 p - Z.log2 q)%Z in
    let reaches := (if 0 <=? t then q * 2 ^ t <=? p else q <=? p * 2 ^ (- t))%Z in
    let k := (if reaches then t else t - 1)%Z in
    let e := Z.max (k - 52) (-1074) in
    let num := (if 0 <=? e then p else p * 2 ^ (- e))%Z in
    let den := (if 0 <=? e then q * 2 ^ e else q)%Z in
    let m0 := (num / den)%Z in
    let r := (num mod den)%Z in
    let m := (if (den <? 2 * r) || ((den =? 2 * r) && Z.odd m0)
              then m0 + 1 else m0)%Z in
    if (m =? 0)%Z then FZero neg
    else if (1024 <=? Z.log2 m + e)%Z then FInf neg
    else let '(m', e') := odd_mantissa 64 m e in FFinite neg (Z.to_pos m') e'.

(** A number after its sign: 0 or a digit 1-9 and digits, then
    possibly a point and digits, then possibly e or E, a sign and
    digits; an [int] when it has neither fraction nor exponent and a
    [float] otherwise. *)
Definition scan_number (neg : bool) (s : string) : option (json * string) :=
  match s with
  | EmptyString => None
  | String c s' =>
      if negb (is_digit c) then None
      else
        let '(n, _, r1) :=
          if Ascii.eqb c "0" then (0%Z, 1%Z, s') else scan_digits (digit_val c) 1 s' in
        let '(m, flen, r2, has_frac) :=
          match r1 with
          | String d (String f _ as digits) =>
              if Ascii.eqb d "." && is_digit f
              then let '(m, k, r) := scan_digits n 0 digits in (m, k, r, true)
              else (n, 0%Z, r1, false)
          | _ => (n, 0%Z, r1, false)
          end in
        let '(ex, r3, has_exp) :=
          match r2 with
          | String e (String g after as digits) =>
              if Ascii.eqb e "e" || Ascii.eqb e "E" then
                if is_digit g
                then let '(x, _, r) := scan_digits 0 0 digits in (x, r, true)
                else if Ascii.eqb g "+" || Ascii.eqb g "-" then
                  match after with
                  | String d _ =>
                      if is_digit d
                      then let '(x, _, r) := scan_digits 0 0 after in
                           ((if Ascii.eqb g "-" then - x else x)%Z, r, true)
                      else (0%Z, r2, false)
                  | EmptyString => (0%Z, r2, false)
                  end
                else (0%Z, r2, false)
              else (0%Z, r2, false)
          | _ => (0%Z, r2, false)
          end in
        if has_frac || has_exp
        then Some (JFloat (nearest_double neg m (ex - flen)), r3)
        else Some (JInt (if neg then - n else n), r3)
  end.

Definition parser (A : Type) : Type := string -> option (A * string).

(** The elements of an array after the first has been found to exist. *)
Fixpoint parse_elements (pv : parser json) (n : nat) (s : string)
  : option (list json * string) :=
  match n with
  | O => None
  | S n' =>
      match pv s with
      | Some (v, rest) =>
          match skip_ws rest with
          | String c rest' =>
              if Ascii.eqb c "," then
                match parse_elements pv n' rest' with
                | Some (vs, r) => Some (v :: vs, r)
                | None => None
                end
              else if Ascii.eqb c "]" then Some ([v], rest')
              else None
          | EmptyString => None
          end
      | None => None
      end
  end.

(** The members of an object; a repeated key keeps its last value. *)
Fixpoint parse_members (pv : parser json) (n : nat) (acc : gmap string json)
    (s : string) : option (gmap string json * string) :=
  match n with
  | O => None
  | S n' =>
      match skip_ws s with
      | String q s1 =>
          if negb (Ascii.eqb q (ascii_of_nat 34)) then None
          else
            match scan_string s1 with
            | Some (key, s2) =>
                match skip_ws s2 with
                | String c s3 =>
                    if negb (Ascii.eqb c ":") then None
                    else
                      match pv s3 with
                      | Some (v, s4) =>
                          match skip_ws s4 with
                          | String c' s5 =>
                              if Ascii.eqb c' "," then
                                parse_members pv n' (<[key := v]> acc) s5
                              else if Ascii.eqb c' "}" then
                                Some (<[key := v]> acc, s5)
                              else None
                          | EmptyString => None
                          end
                      | None => None
                      end
                | EmptyString => None
                end
            | None => None
            end
      | EmptyString => None
      end
  end.

Fixpoint parse_value (fuel : nat) (s : string) : option (json * string) :=
  match fuel with
  | O => None
  | S fuel' =>
      match skip_ws s with
      | EmptyString => None
      | String c rest as s0 =>
          if Ascii.eqb c (ascii_of_nat 34) then
            match scan_string rest with
            | Some (body, r) => Some (JStr body, r)
            | None => None
            end
          else if Ascii.eqb c "[" then
            match skip_ws rest with
            | String c' r =>
                if Ascii.eqb c' "]" then Some (JArr [], r)
                else
                  match parse_elements (parse_value fuel') (String.length rest) rest with
                  | Some (vs, r') => Some (JArr vs, r')
                  | None => None
                  end
            | EmptyString => None
            end
          else if Ascii.eqb c "{" then
            match skip_ws rest with
            | String c' r =>
                if Ascii.eqb c' "}" then Some (JObj ∅, r)
                else
                  match parse_members (parse_value fuel') (String.length rest) ∅ rest with
                  | Some (d, r') => Some (JObj d, r')
                  | None => None
                  end
            | EmptyString => None
            end
          else if Str.starts_with "null" s0 then Some (JNull, drop 4 s0)
          else if Str.starts_with "true" s0 then Some (JBool true, drop 4 s0)
          else if Str.starts_with "false" s0 then Some (JBool false, drop 5 s0)
          else if Str.starts_with "NaN" s0 then Some (JFloat FNaN, drop 3 s0)
          else if Str.starts_with "Infinity" s0 then Some (JFloat (FInf false), drop 8 s0)
          else if Str.starts_with "-Infinity" s0 then Some (JFloat (FInf true), drop 9 s0)
          else if Ascii.eqb c "-" then scan_number true rest
          else scan_number false s0
      end
  end.

Definition JSONDecodeError : exn := Exn "JSONDecodeError" "Expecting value".

Definition loads (s : string) : exn + json :=
  match parse_value (S (String.length s)) s with
  | Some (v, rest) =>
      match skip_ws rest with
      | EmptyString => inr v
      | _ => inl (Exn "JSONDecodeError" "Extra data")
      end
  | None => inl JSONDecodeError
  end.

(** A stand-in for BeautifulSoup's class search, for the runs of this
    file.  On a page in which the word "class" does not occur no element
    has a class attribute, so both searches find nothing, as
    BeautifulSoup's do.  A page in which it occurs is outside what the
    stand-in covers: it answers with an error there, which is not what
    BeautifulSoup does, and no run of this file uses such a page. *)
Definition find_all (terms : list string) (html : string) : exn + list string :=
  if Str.contains "class" (Str.lower html)
  then inl (Exn "NotImplementedError" "page with class attributes")
  else inr [].

Definition find (terms : list string) (html : string) : exn + option string :=
  if Str.contains "class" (Str.lower html)
  then inl (Exn "NotImplementedError" "page with class attributes")
  else inr None.

#[export] Instance libraries : Libraries :=
  {| json_loads := loads; soup_find_all := find_all; soup_find := find |}.

(** [s] between double quotes *)
Definition q (s : string) : string := Str.dq +:+ s +:+ Str.dq.

End Lite.

(** ** Specification vocabulary *)

(** [body] contains [needle] in any letter case: some run of characters
    of [body] lowers to [needle]. *)
Definition ci_contains (needle body : string) : Prop :=
  ∃ pre mid post, body = pre +:+ mid +:+ post ∧ Str.lower mid = needle.

(** A Stage-1 heuristic matches. *)
Definition heuristic_match (body : string) (status : Z) : Prop :=
  status = 403%Z ∨ status = 429%Z ∨ status = 503%Z
  ∨ ci_contains "captcha" body
  ∨ ci_contains "access denied" body
  ∨ ci_contains "rate limit" body.

(** The calls to the completion service in a trace, in order. *)
Fixpoint completion_calls (t : list event) : list (string * string) :=
  match t with
  | [] => []
  | EvCompletion model content :: t' => (model, content) :: completion_calls t'
  | _ :: t' => completion_calls t'
  end.

(** The GET requests in a trace, in order. *)
Fixpoint get_calls (t : list event) : list (string * headers) :=
  match t with
  | [] => []
  | EvGet u hd :: t' => (u, hd) :: get_calls t'
  | _ :: t' => get_calls t'
  end.

(** A price as the data model wants it: a number, not below zero. *)
Definition nonneg_number (v : json) : bool :=
  match v with
  | JInt z => (0 <=? z)%Z
  | JFloat (FZero _) => true
  | JFloat (FFinite neg _ _) => negb neg
  | _ => false
  end.

(** An event of the reducer or of the extractor: the page handed to the
    HTML parser, or a completion call carrying the extraction message. *)
Definition extraction_stage_event (e : event) : Prop :=
  match e with
  | EvSoup _ => True
  | EvCompletion _ content => ∃ clean_html, content = extraction_message clean_html
  | _ => False
  end.

(** The file writes in a trace, in order. *)
Fixpoint writes (t : list event) : list (string * string) :=
  match t with
  | [] => []
  | EvOpenWrite path content :: t' => (path, content) :: writes t'
  | _ :: t' => writes t'
  end.

(** The two runs get the same answers from the transport and from the
    completion service; the clock, the draw of the user agent and the
    file system are free. *)
Definition same_answers `{Libraries} (self : SmartScraper) (w1 w2 : world) : Prop :=
  (∀ hd1 hd2,
      fst (_get_headers self w1) = Ret hd1 →
      fst (_get_headers self w2) = Ret hd2 →
      transport w1 (url self) hd1 = transport w2 (url self) hd2)
  ∧ (∀ model content, completion w1 model content = completion w2 model content).

(** ** The rest of the source *)

(** [s.split(sep)[0]] for a non-empty [sep]: [s] up to the first
    occurrence of [sep], all of [s] when there is none. *)
Fixpoint split_head (sep s : string) : string :=
  if Str.starts_with sep s then EmptyString
  else match s with
       | EmptyString => EmptyString
       | String c s' => String c (split_head sep s')
       end.

(** The [azure_endpoint] that [__init__] gives the client (line 40),
    [Config.AZURE_OPENAI_ENDPOINT.split('/openai/')[0]]; the configured
    endpoint is a parameter. *)
Definition azure_endpoint (AZURE_OPENAI_ENDPOINT : string) : string :=
  split_head "/openai/" AZURE_OPENAI_ENDPOINT.

(** The test [if result:] of [main] (line 229) on what [scrape] returned. *)
Definition result_truthy (result : option (gmap string json)) : bool :=
  match result with
  | None => false
  | Some d => negb (bool_decide (d = ∅))
  end.

(** The pages handed to the HTML parser in a trace, in order. *)
Fixpoint parses (t : list event) : list string :=
  match t with
  | [] => []
  | EvSoup html :: t' => html :: parses t'
  | _ :: t' => parses t'
  end.

(** ** Concrete runs *)

Module Run.

Definition cfg : Config := {| AZURE_OPENAI_DEPLOYMENT_NAME := "gpt-4o" |}.

Definition shop : string := "https://shop.example/item/1".

Definition scraper : SmartScraper := SmartScraper_init cfg shop.

(** A mocked world: one answer of the transport, one reply to the
    blocking check, one reply to the extraction, one outcome of a file
    write, one reading of the clock and one draw. *)
Definition mock (get : exn + (string * Z)) (classifier extractor : exn + string)
    (fs : option exn) (now : string) (draw : nat) : world :=
  {| transport := fun _ _ => get;
     completion := fun _ content =>
       if Str.starts_with blocking_prompt content then classifier else extractor;
     filesystem := fun _ _ => fs;
     clock := now;
     rng := draw |}.

Definition page : string :=
  "<html><body><h1>Shower gel</h1><span>9,99</span></body></html>".

Definition forbidden : string := "<html><body>Forbidden</body></html>".

Definition noon : string := "2024-05-01T12:00:00.000000".
Definition midnight : string := "2024-05-02T00:00:00.000000".

Definition timed_out : exn := Exn "TimeoutError" "".
Definition service_down : exn := Exn "APIConnectionError" "Connection error.".
Definition disk_full : exn := Exn "OSError" "[Errno 28] No space left on device".

(** The headers of the request when the draw picks the second agent. *)
Definition firefox_headers : headers :=
  [ ("User-Agent", "Mozilla/5.0 (Windows NT 10.0; Win64; x64; rv:89.0) Gecko/20100101 Firefox/89.0");
    ("Accept", "text/html,application/xhtml+xml,application/xml;q=0.9,*/*;q=0.8");
    ("Accept-Language", "en-US,en;q=0.5");
    ("Accept-Encoding", "gzip, deflate, br");
    ("DNT", "1");
    ("Connection", "keep-alive") ].

(** Replies of the service, as JSON text. *)
Definition member (key value : string) : string := Lite.q key +:+ ": " +:+ value.

Definition not_blocked : string :=
  "{" +:+ member "is_blocked" "false" +:+ ", " +:+ member "reason" (Lite.q "none") +:+ "}".

Definition reply_free : string :=
  "{" +:+ member "name" (Lite.q "Shower gel") +:+ ", "
      +:+ member "price" (Lite.q "free") +:+ ", "
      +:+ member "currency" (Lite.q "EUR") +:+ ", "
      +:+ member "promotion" "null" +:+ "}".

Definition reply_ok : string :=
  "{" +:+ member "name" (Lite.q "Shower gel") +:+ ", "
      +:+ member "price" "10" +:+ ", "
      +:+ member "currency" (Lite.q "EUR") +:+ ", "
      +:+ member "promotion" "null" +:+ "}".

Definition reply_own_url : string :=
  "{" +:+ member "name" (Lite.q "Shower gel") +:+ ", "
      +:+ member "url" (Lite.q "https://other.example/") +:+ ", "
      +:+ member "timestamp" (Lite.q "1999-01-01T00:00:00") +:+ "}".

Definition reply_array : string := "[]".

(** The same replies, parsed. *)
Definition fields_free : gmap string json :=
  list_to_map [ ("name", JStr "Shower gel"); ("price", JStr "free");
                ("currency", JStr "EUR"); ("promotion", JNull) ].

Definition fields_ok : gmap string json :=
  list_to_map [ ("name", JStr "Shower gel"); ("price", JInt 10);
                ("currency", JStr "EUR"); ("promotion", JNull) ].

Definition fields_own_url : gmap string json :=
  list_to_map [ ("name", JStr "Shower gel"); ("url", JStr "https://other.example/");
                ("timestamp", JStr "1999-01-01T00:00:00") ].

(** The record the pipeline makes of parsed fields at a clock reading. *)
Definition stamped (d : gmap string json) (now : string) : gmap string json :=
  <["url" := JStr shop]> (<["timestamp" := JStr now]> d).

(** Named worlds.  Everything answers: the page with status 200, a
    clear verdict, the priced reply; the file is written. *)
Definition calm : world :=
  mock (inr (page, 200%Z)) (inr not_blocked) (inr reply_ok) None noon 4.

(** The classifier call raises. *)
Definition classifier_down : world :=
  mock (inr (page, 200%Z)) (inl service_down) (inr reply_ok) None noon 4.

(** The extraction call raises. *)
Definition extractor_down : world :=
  mock (inr (page, 200%Z)) (inr not_blocked) (inl service_down) None noon 4.

(** The extraction reply prices the product as "free". *)
Definition priced_free : world :=
  mock (inr (page, 200%Z)) (inr not_blocked) (inr reply_free) None noon 4.

(** The extraction reply is a JSON array. *)
Definition replies_array : world :=
  mock (inr (page, 200%Z)) (inr not_blocked) (inr reply_array) None noon 4.

(** The extraction reply brings its own url and timestamp. *)
Definition replies_own_url : world :=
  mock (inr (page, 200%Z)) (inr not_blocked) (inr reply_own_url) None noon 4.

(** The request times out. *)
Definition offline : world :=
  mock (inl timed_out) (inr not_blocked) (inr reply_ok) None noon 4.

(** The site answers 403 with a page. *)
Definition refused : world :=
  mock (inr (forbidden, 403%Z)) (inr not_blocked) (inr reply_ok) None noon 4.

(** The debug file cannot be written. *)
Definition full_disk : world :=
  mock (inr (page, 200%Z)) (inr not_blocked) (inr reply_ok) (Some disk_full) noon 4.

(** [calm] again, later, and with another draw of the user agent. *)
Definition calm_later : world :=
  mock (inr (page, 200%Z)) (inr not_blocked) (inr reply_ok) None midnight 5.

(** The site answers 500 with a page of its own. *)
Definition server_error_page : string := "<html><body>Internal error</body></html>".

Definition server_error : world :=
  mock (inr (server_error_page, 500%Z)) (inr not_blocked) (inr reply_ok) None noon 4.

(** The classifier answers with the string "false" for a boolean. *)
Definition says_false_string : string :=
  "{" +:+ member "is_blocked" (Lite.q "false") +:+ "}".

Definition fields_false_string : gmap string json :=
  list_to_map [ ("is_blocked", JStr "false") ].

Definition classifier_says_string : world :=
  mock (inr (page, 200%Z)) (inr says_false_string) (inr reply_ok) None noon 4.

(** The classifier answers with a JSON array. *)
Definition classifier_array : world :=
  mock (inr (page, 200%Z)) (inr reply_array) (inr reply_ok) None noon 4.

(** [n] times the letter x. *)
Fixpoint filler (n : nat) : string :=
  match n with
  | O => EmptyString
  | S n' => String "x" (filler n')
  end.

(** A page of more than 1000 characters, with none of the blocking
    phrases. *)
Definition long_page : string :=
  "<html><body>" +:+ filler 1500 +:+ "</body></html>".

End Run.

(** * Properties *)

(** ** Strings *)

#[local] Arguments String.append !_ _ / : simpl nomatch.

Lemma starts_with_spec (p s : string) :
  Str.starts_with p s = true ↔ ∃ r, s = p +:+ r.
Proof.
  revert s. induction p as [|a p IH]; intros s; simpl.
  - split; [intros _; now exists s | reflexivity].
  - destruct s as [|b s].
    + split; [discriminate | intros [r Hr]; discriminate].
    + destruct (Ascii.eqb_spec a b) as [->|Hne].
      * rewrite IH. split; intros [r Hr]; exists r; [now rewrite Hr | now injection Hr].
      * split; [discriminate | intros [r Hr]; injection Hr; intros _ E; now subst].
Qed.

Lemma contains_spec (needle s : string) :
  Str.contains needle s = true ↔ ∃ pre post, s = pre +:+ needle +:+ post.
Proof.
  induction s as [|c s IH]; simpl.
  - rewrite orb_false_r, starts_with_spec. split.
    + intros [r Hr]. now exists "", r.
    + intros [pre [post E]]. destruct pre; [now exists post | discriminate].
  - rewrite orb_true_iff, starts_with_spec, IH. split.
    + intros [[r Hr] | [pre [post E]]].
      * now exists "", r.
      * exists (String c pre), post. simpl. now rewrite E.
    + intros [pre [post E]]. destruct pre as [|x pre]; simpl in E.
      * left. now exists post.
      * right. injection E as _ E. now exists pre, post.
Qed.

Lemma lower_app (a b : string) : Str.lower (a +:+ b) = Str.lower a +:+ Str.lower b.
Proof. induction a as [|x a IH]; simpl; [reflexivity | now rewrite IH]. Qed.

Lemma lower_split (s a b : string) :
  Str.lower s = a +:+ b →
  ∃ s1 s2, s = s1 +:+ s2 ∧ Str.lower s1 = a ∧ Str.lower s2 = b.
Proof.
  revert s. induction a as [|x a IH]; intros s E; simpl in E.
  - now exists "", s.
  - destruct s as [|c s]; [discriminate |]. simpl in E.
    injection E as Hc E. destruct (IH s E) as (s1 & s2 & -> & H1 & H2).
    exists (String c s1), s2. simpl. now rewrite Hc, H1.
Qed.

(** The test of the source, [needle in text.lower()], is containment in
    any letter case. *)
Lemma contains_lower_iff (needle body : string) :
  Str.contains needle (Str.lower body) = true ↔ ci_contains needle body.
Proof.
  rewrite contains_spec. split.
  - intros (pre & post & E).
    destruct (lower_split _ _ _ E) as (s1 & s2 & -> & H1 & H2).
    destruct (lower_split _ _ _ H2) as (m & s3 & -> & H3 & H4).
    now exists s1, m, s3.
  - intros (pre & mid & post & -> & <-).
    exists (Str.lower pre), (Str.lower post). now rewrite !lower_app.
Qed.

(** [s[:n]] is the first [n] characters of [s], or all of it. *)
Lemma slice_to_prefix (n : nat) (s : string) :
  ∃ rest, s = Str.slice_to n s +:+ rest.
Proof.
  revert s. induction n as [|n IH]; intros s; simpl.
  - now exists s.
  - destruct s as [|c s]; [now exists "" |].
    destruct (IH s) as [rest E]. exists rest. simpl. now rewrite <- E.
Qed.

Lemma slice_to_length (n : nat) (s : string) :
  String.length (Str.slice_to n s) = Nat.min n (String.length s).
Proof.
  revert s. induction n as [|n IH]; intros s; simpl; [reflexivity |].
  destruct s as [|c s]; simpl; [reflexivity | now rewrite IH].
Qed.

(** ** The heuristic stage *)

Lemma any_blocking_indicators (body : string) (status : Z) :
  any (blocking_indicators body status) = true ↔ heuristic_match body status.
Proof.
  unfold any, blocking_indicators, heuristic_match, blocked_statuses. simpl.
  rewrite orb_false_r, !orb_true_iff, bool_decide_eq_true.
  rewrite !contains_lower_iff. unfold id.
  rewrite !elem_of_cons, elem_of_nil. tauto.
Qed.

(** ** Running the methods *)

#[local] Arguments blocking_message : simpl never.
#[local] Arguments extraction_message : simpl never.
#[local] Arguments clean_html_of : simpl never.

Section Pipeline.

Context `{Libraries}.

Implicit Types (w : world) (self : SmartScraper) (t : list event).

Lemma get_headers_trace self w : snd (_get_headers self w) = [].
Proof.
  unfold _get_headers, bind, random_choice, ret.
  destruct (user_agents self); reflexivity.
Qed.

Lemma get_headers_init (cfg : Config) (u : string) w :
  ∃ hd, _get_headers (SmartScraper_init cfg u) w = (Ret hd, []).
Proof. unfold _get_headers, bind, random_choice, ret. simpl. eauto. Qed.

(** The fetch, by cases on the draw of the headers and the answer of the
    transport. *)
Lemma safe_request_unfold self w :
  _safe_request self w =
  match fst (_get_headers self w) with
  | Ret hd =>
      match transport w (url self) hd with
      | inr response => (Ret (Some (fst response), snd response), [EvGet (url self) hd])
      | inl e => (Ret (None, 500%Z), [EvGet (url self) hd; EvLog ERROR (RequestFailed e)])
      end
  | Raise e => (Ret (None, 500%Z), [EvLog ERROR (RequestFailed e)])
  end.
Proof.
  pose proof (get_headers_trace self w) as Ht.
  unfold _safe_request, try_except, bind at 1.
  destruct (_get_headers self w) as [[hd|e] t0]; simpl in *; subst t0.
  - unfold bind, session_get, ret. destruct (transport w (url self) hd); reflexivity.
  - reflexivity.
Qed.

Lemma safe_request_total self w : ∃ r t, _safe_request self w = (Ret r, t).
Proof.
  rewrite safe_request_unfold.
  destruct (fst (_get_headers self w)); [destruct (transport _ _ _) |]; eauto.
Qed.

(** The heuristic stage answers by itself. *)
Lemma check_heuristic self body status w :
  any (blocking_indicators body status) = true →
  _check_for_blocking self body status w
  = (Ret true, [EvLog ERROR (BlockingDetected status)]).
Proof. intros Hany. unfold _check_for_blocking. rewrite Hany. reflexivity. Qed.

(** The semantic stage, by cases on the service and on the parse. *)
Lemma check_semantic self body status w :
  any (blocking_indicators body status) = false →
  _check_for_blocking self body status w =
  let call := EvCompletion (deployment_name self) (blocking_message body) in
  match completion w (deployment_name self) (blocking_message body) with
  | inl e => (Ret false, [call; EvLog ERROR (LLMBlockingCheckError e)])
  | inr content =>
      match json_loads content with
      | inl e => (Ret false, [call; EvLog ERROR (LLMBlockingCheckError e)])
      | inr (JObj d) =>
          if truthy (d !! "is_blocked")
          then (Ret true, [call; EvLog ERROR (LLMDetectedBlocking (d !! "reason"))])
          else (Ret false, [call])
      | inr v =>
          (Ret false, [call; EvLog ERROR (LLMBlockingCheckError (AttributeError v "get"))])
      end
  end.
Proof.
  intros Hany. unfold _check_for_blocking. rewrite Hany.
  unfold try_except, bind at 1, chat_completions_create.
  destruct (completion w _ _) as [e|content]; [reflexivity |].
  unfold bind at 1, of_result.
  destruct (json_loads content) as [e|v]; [reflexivity |].
  destruct v; try reflexivity.
  unfold bind, get, ret, raise, logging, emit. simpl.
  destruct (truthy (d !! "is_blocked")); reflexivity.
Qed.

Lemma check_total self body status w :
  ∃ b t, _check_for_blocking self body status w = (Ret b, t).
Proof.
  destruct (any (blocking_indicators body status)) eqn:Hany.
  - rewrite check_heuristic by assumption. eauto.
  - rewrite check_semantic by assumption. simpl.
    destruct (completion w _ _) as [e|content]; [eauto |].
    destruct (json_loads content) as [e|[]]; eauto.
    destruct (truthy _); eauto.
Qed.

(** The extraction, by cases on the reduction, the service and the parse. *)
Lemma extract_unfold self html w :
  _extract_data_with_llm self html w =
  let failed t e := (Ret None, t ++ [EvLog ERROR (LLMExtractionError e)]) in
  match soup_find_all ["price"; "prijs"; "amount"; "bedrag"] html with
  | inl e => failed [EvSoup html] e
  | inr elems =>
      match soup_find ["product"; "artikel"; "item"] html with
      | inl e => failed [EvSoup html] e
      | inr found =>
          let msg := extraction_message (clean_html_of elems (product_section_of found)) in
          let t := [EvSoup html; EvCompletion (deployment_name self) msg] in
          match completion w (deployment_name self) msg with
          | inl e => failed t e
          | inr content =>
              match json_loads content with
              | inl e => failed t e
              | inr (JObj d) =>
                  (Ret (Some (<["url" := JStr (url self)]>
                                (<["timestamp" := JStr (clock w)]> d))), t)
              | inr v => failed t (AttributeError v "update")
              end
          end
      end
  end.
Proof.
  unfold _extract_data_with_llm, try_except, reduce.
  unfold bind, emit, of_result, ret, raise, chat_completions_create,
    datetime_now_isoformat, logging.
  destruct (soup_find_all _ html) as [e|elems]; [reflexivity |].
  destruct (soup_find _ html) as [e|found]; [reflexivity |].
  cbn [fst snd app].
  destruct (completion w _ _) as [e|content]; [reflexivity |].
  destruct (json_loads content) as [e|v]; [reflexivity |].
  destruct v; reflexivity.
Qed.

Lemma extract_total self html w :
  ∃ r t, _extract_data_with_llm self html w = (Ret r, t).
Proof.
  rewrite extract_unfold. cbv zeta.
  destruct (soup_find_all _ html); [eauto |].
  destruct (soup_find _ html); [eauto |].
  destruct (completion w _ _) as [e|content]; [eauto |].
  destruct (json_loads content) as [e|[]]; eauto.
Qed.

(** A record comes back only from a reply that parses to an object. *)
Lemma extract_some_inv self html w r :
  fst (_extract_data_with_llm self html w) = Ret (Some r) →
  ∃ elems found content d,
    soup_find_all ["price"; "prijs"; "amount"; "bedrag"] html = inr elems
    ∧ soup_find ["product"; "artikel"; "item"] html = inr found
    ∧ completion w (deployment_name self)
        (extraction_message (clean_html_of elems (product_section_of found)))
      = inr content
    ∧ json_loads content = inr (JObj d)
    ∧ r = <["url" := JStr (url self)]> (<["timestamp" := JStr (clock w)]> d).
Proof.
  rewrite extract_unfold. cbv zeta.
  destruct (soup_find_all _ html) as [e|elems]; [discriminate |].
  destruct (soup_find _ html) as [e|found]; [discriminate |].
  destruct (completion w _ _) as [e|content] eqn:Hc; [discriminate |].
  destruct (json_loads content) as [e|v] eqn:Hj; [discriminate |].
  destruct v; try discriminate. simpl. intros [= <-].
  exists elems, found, content, d. auto.
Qed.

(** The orchestrator, by cases on the fetch and on the verdict. *)
Lemma scrape_unfold self w :
  scrape self w =
  match _safe_request self w with
  | (Ret (None, _), t1) => (Ret None, t1)
  | (Ret (Some body, status), t1) =>
      match _check_for_blocking self body status w with
      | (Ret true, t2) => (Ret None, t1 ++ t2 ++ [EvLog ERROR ScrapingBlocked])
      | (Ret false, t2) =>
          let write := EvOpenWrite "last_response.html" body in
          match filesystem w "last_response.html" body with
          | Some e => (Raise e, t1 ++ t2 ++ [write])
          | None =>
              let '(o, t3) := _extract_data_with_llm self body w in
              (o, t1 ++ t2 ++ [write; EvLog INFO SavedHTMLResponse] ++ t3)
          end
      | (Raise e, t2) => (Raise e, t1 ++ t2)
      end
  | (Raise e, t1) => (Raise e, t1)
  end.
Proof.
  unfold scrape, bind at 1.
  destruct (_safe_request self w) as [[[[body|] status]|e] t1]; cbn [fst snd].
  - unfold bind at 1.
    destruct (_check_for_blocking self body status w) as [[[|]|e] t2].
    + reflexivity.
    + unfold bind at 1, open_write.
      destruct (filesystem w _ body); [reflexivity |].
      unfold bind, logging, emit.
      destruct (_extract_data_with_llm self body w) as [o t3]. reflexivity.
    + reflexivity.
  - unfold ret. now rewrite app_nil_r.
  - reflexivity.
Qed.

End Pipeline.

(** ** What the stages before the extraction leave in the trace *)

Section Stages.

Context `{Libraries}.

Implicit Types (w : world) (self : SmartScraper) (t : list event).

Lemma blocking_message_not_extraction (body clean_html : string) :
  blocking_message body ≠ extraction_message clean_html.
Proof.
  intros E. apply (f_equal (Str.slice_to 1)) in E.
  vm_compute in E. discriminate.
Qed.

Lemma safe_request_stage_events self w :
  Forall (fun e => ¬ extraction_stage_event e) (snd (_safe_request self w)).
Proof.
  rewrite safe_request_unfold.
  destruct (fst (_get_headers self w)); [destruct (transport _ _ _) |];
    repeat constructor; simpl; tauto.
Qed.

Lemma check_stage_events self body status w :
  Forall (fun e => ¬ extraction_stage_event e)
         (snd (_check_for_blocking self body status w)).
Proof.
  assert (Hcall : ¬ extraction_stage_event
                    (EvCompletion (deployment_name self) (blocking_message body))).
  { intros [clean E]. exact (blocking_message_not_extraction _ _ E). }
  destruct (any (blocking_indicators body status)) eqn:Hany.
  - rewrite check_heuristic by assumption. repeat constructor. simpl. tauto.
  - rewrite check_semantic by assumption. cbv zeta.
    destruct (completion w _ _) as [e|content].
    + repeat constructor; simpl; tauto.
    + destruct (json_loads content) as [e|[]];
        try (repeat constructor; simpl; tauto).
      destruct (truthy _); repeat constructor; simpl; tauto.
Qed.

Lemma safe_request_writes self w : writes (snd (_safe_request self w)) = [].
Proof.
  rewrite safe_request_unfold.
  destruct (fst (_get_headers self w)); [destruct (transport _ _ _) |]; reflexivity.
Qed.

Lemma check_writes self body status w :
  writes (snd (_check_for_blocking self body status w)) = [].
Proof.
  destruct (any (blocking_indicators body status)) eqn:Hany.
  - now rewrite check_heuristic.
  - rewrite check_semantic by assumption. cbv zeta.
    destruct (completion w _ _) as [e|content]; [reflexivity |].
    destruct (json_loads content) as [e|[]]; try reflexivity.
    destruct (truthy _); reflexivity.
Qed.

Lemma writes_app t t' : writes (t ++ t') = writes t ++ writes t'.
Proof.
  induction t as [|e t IH]; [reflexivity |].
  destruct e; simpl; now rewrite IH.
Qed.

Lemma extract_writes self html w :
  writes (snd (_extract_data_with_llm self html w)) = [].
Proof.
  rewrite extract_unfold. cbv zeta.
  destruct (soup_find_all _ html); [reflexivity |].
  destruct (soup_find _ html); [reflexivity |].
  destruct (completion w _ _) as [?|content]; [reflexivity |].
  destruct (json_loads content) as [?|[]]; reflexivity.
Qed.

(** Past a fetched body and a False verdict, [scrape] is the debug write
    followed by the extractor. *)
Lemma scrape_clear_path self w body status :
  fst (_safe_request self w) = Ret (Some body, status) →
  fst (_check_for_blocking self body status w) = Ret false →
  scrape self w =
  let t := snd (_safe_request self w) ++ snd (_check_for_blocking self body status w) in
  let write := EvOpenWrite "last_response.html" body in
  match filesystem w "last_response.html" body with
  | Some e => (Raise e, t ++ [write])
  | None =>
      (fst (_extract_data_with_llm self body w),
       t ++ [write; EvLog INFO SavedHTMLResponse]
         ++ snd (_extract_data_with_llm self body w))
  end.
Proof.
  intros Hf Hb. rewrite scrape_unfold.
  destruct (_safe_request self w) as [o1 t1]. cbn [fst snd] in *. subst o1.
  destruct (_check_for_blocking self body status w) as [o2 t2].
  cbn [fst snd] in *. subst o2. cbv zeta.
  destruct (filesystem w _ body); [now rewrite app_assoc |].
  destruct (_extract_data_with_llm self body w) as [o3 t3].
  cbn [fst snd]. now rewrite app_assoc.
Qed.

(** A record comes out of [scrape] only through the extractor, on the
    body that was fetched and found clear. *)
Lemma scrape_some_inv self w r :
  fst (scrape self w) = Ret (Some r) →
  ∃ body status,
    fst (_safe_request self w) = Ret (Some body, status)
    ∧ fst (_check_for_blocking self body status w) = Ret false
    ∧ fst (_extract_data_with_llm self body w) = Ret (Some r).
Proof.
  rewrite scrape_unfold.
  destruct (_safe_request self w) as [[[[body|] status]|e] t1]; try discriminate.
  destruct (_check_for_blocking self body status w) as [[[|]|e] t2] eqn:Hc;
    try discriminate.
  destruct (filesystem w _ body); [discriminate |].
  destruct (_extract_data_with_llm self body w) as [o t3] eqn:He. simpl.
  intros ->. exists body, status. rewrite Hc, He. auto.
Qed.

(** The draw of the headers fails only for an empty pool, whatever the
    world. *)
Lemma get_headers_cases self w :
  (user_agents self = []
   ∧ fst (_get_headers self w)
     = Raise (Exn "IndexError" "Cannot choose from an empty sequence"))
  ∨ (user_agents self ≠ [] ∧ ∃ hd, fst (_get_headers self w) = Ret hd).
Proof.
  unfold _get_headers, bind, random_choice, ret.
  destruct (user_agents self); [left | right]; simpl; eauto.
Qed.

(** The result of the fetch depends on the world through the answer of
    the transport only. *)
Lemma safe_request_same_answers self w1 w2 :
  same_answers self w1 w2 →
  fst (_safe_request self w1) = fst (_safe_request self w2).
Proof.
  intros [Ht _]. rewrite !safe_request_unfold.
  destruct (get_headers_cases self w1) as [[Hnil H1]|[Hne [hd1 H1]]];
    destruct (get_headers_cases self w2) as [[Hnil' H2]|[Hne' [hd2 H2]]];
    try congruence; rewrite H1, H2; [reflexivity |].
  rewrite (Ht hd1 hd2 H1 H2).
  destruct (transport w2 (url self) hd2); reflexivity.
Qed.

End Stages.

(** * The claims *)

Section Claims.

Context `{Libraries}.

Implicit Types (w : world) (self : SmartScraper) (t : list event).

Lemma no_match_of_indicators (body : string) (status : Z) :
  any (blocking_indicators body status) = false → ¬ heuristic_match body status.
Proof. intros Hany Hm. apply any_blocking_indicators in Hm. congruence. Qed.

Lemma indicators_of_no_match (body : string) (status : Z) :
  ¬ heuristic_match body status → any (blocking_indicators body status) = false.
Proof.
  intros Hn. destruct (any _) eqn:Hany; [| reflexivity].
  apply any_blocking_indicators in Hany. contradiction.
Qed.

(** A status of the list blocks whatever the body. *)
Corollary blocked_status_whatever_body self body status w :
  status ∈ blocked_statuses →
  _check_for_blocking self body status w
  = (Ret true, [EvLog ERROR (BlockingDetected status)]).
Proof.
  intros Hs. apply check_heuristic, any_blocking_indicators.
  unfold blocked_statuses in Hs. rewrite !elem_of_cons, elem_of_nil in Hs.
  unfold heuristic_match. tauto.
Qed.

(** A captcha, in any letter case, blocks whatever the status. *)
Corollary captcha_whatever_status self body status w :
  ci_contains "captcha" body →
  _check_for_blocking self body status w
  = (Ret true, [EvLog ERROR (BlockingDetected status)]).
Proof.
  intros Hc. apply check_heuristic, any_blocking_indicators.
  unfold heuristic_match. tauto.
Qed.

(** C1. Whenever the status is 403, 429 or 503, or the body contains
    "captcha", "access denied" or "rate limit" in any letter case, the
    block detection returns True from the heuristic stage: its whole
    trace is the one error log, and the completion service is not
    called. *)
Theorem heuristic_block_short_circuits self body status w :
  heuristic_match body status →
  _check_for_blocking self body status w
  = (Ret true, [EvLog ERROR (BlockingDetected status)])
  ∧ completion_calls (snd (_check_for_blocking self body status w)) = [].
Proof.
  intros Hm. apply any_blocking_indicators in Hm.
  rewrite check_heuristic by assumption. split; reflexivity.
Qed.

(** C2. When no heuristic matches, the block detection calls the
    completion service exactly once, with the prompt followed by the
    first 1000 characters of the body: the excerpt sent is a prefix of
    the body, 1000 characters long, or the whole body when that is
    shorter.  It returns without raising, and its verdict is False when
    the call raises or the reply does not parse as JSON. *)
Theorem semantic_fallback_fails_open self body status w :
  ¬ heuristic_match body status →
  ∃ verdict t excerpt rest,
    _check_for_blocking self body status w = (Ret verdict, t)
    ∧ body = excerpt +:+ rest
    ∧ String.length excerpt = Nat.min 1000 (String.length body)
    ∧ completion_calls t
      = [(deployment_name self,
          blocking_prompt +:+ Str.nl +:+ Str.nl +:+ "First 1000 chars of HTML: "
          +:+ excerpt)]
    ∧ (∀ e, completion w (deployment_name self)
              (blocking_prompt +:+ Str.nl +:+ Str.nl +:+ "First 1000 chars of HTML: "
               +:+ excerpt) = inl e →
            verdict = false)
    ∧ (∀ content e,
          completion w (deployment_name self)
            (blocking_prompt +:+ Str.nl +:+ Str.nl +:+ "First 1000 chars of HTML: "
             +:+ excerpt) = inr content →
          json_loads content = inl e →
          verdict = false).
Proof.
  intros Hn. apply indicators_of_no_match in Hn.
  destruct (slice_to_prefix 1000 body) as [rest Hrest].
  assert (Hshape : ∃ verdict t,
             _check_for_blocking self body status w = (Ret verdict, t)
             ∧ completion_calls t = [(deployment_name self, blocking_message body)]
             ∧ (∀ e, completion w (deployment_name self) (blocking_message body) = inl e →
                     verdict = false)
             ∧ (∀ content e,
                   completion w (deployment_name self) (blocking_message body)
                   = inr content →
                   json_loads content = inl e →
                   verdict = false)).
  { rewrite check_semantic by assumption. cbv zeta.
    destruct (completion w _ _) as [e|content] eqn:Hc.
    - eexists _, _. repeat split; congruence.
    - destruct (json_loads content) as [e|v] eqn:Hj.
      + eexists _, _. repeat split; congruence.
      + destruct v; try (eexists _, _; repeat split; intros; congruence).
        destruct (truthy _); eexists _, _; repeat split; intros; congruence. }
  destruct Hshape as (verdict & t & Hrun & Hcalls & Hraise & Hparse).
  exists verdict, t, (Str.slice_to 1000 body), rest.
  split; [exact Hrun |]. split; [exact Hrest |].
  split; [apply slice_to_length |].
  split; [exact Hcalls |]. split; [exact Hraise | exact Hparse].
Qed.

(** C3, as amended. A record returned by the extractor holds under
    "price" exactly what the parsed reply of the service holds there:
    the value is passed through, neither coerced nor checked. *)
Theorem extractor_price_is_reply_price self html w r :
  fst (_extract_data_with_llm self html w) = Ret (Some r) →
  ∃ elems found content d,
    soup_find_all ["price"; "prijs"; "amount"; "bedrag"] html = inr elems
    ∧ soup_find ["product"; "artikel"; "item"] html = inr found
    ∧ completion w (deployment_name self)
        (extraction_message (clean_html_of elems (product_section_of found)))
      = inr content
    ∧ json_loads content = inr (JObj d)
    ∧ r !! "price" = d !! "price".
Proof.
  intros Hr.
  destruct (extract_some_inv _ _ _ _ Hr) as (elems & found & content & d & ? & ? & ? & ? & ->).
  exists elems, found, content, d. repeat split; try assumption.
  now rewrite !lookup_insert_ne by discriminate.
Qed.

(** C4. When the transport fails, the fetch returns (None, 500) without
    raising, after one GET and one error log; no second request is
    made. *)
Theorem safe_request_transport_failure self w hd e :
  fst (_get_headers self w) = Ret hd →
  transport w (url self) hd = inl e →
  _safe_request self w
  = (Ret (None, 500%Z), [EvGet (url self) hd; EvLog ERROR (RequestFailed e)])
  ∧ get_calls (snd (_safe_request self w)) = [(url self, hd)].
Proof.
  intros Hhd Ht. rewrite safe_request_unfold, Hhd, Ht. split; reflexivity.
Qed.

(** C5. When the fetch returns no body, or the block verdict is True,
    [scrape] returns None, and its trace holds no event of the reducer
    or of the extractor: no page is parsed and no extraction message is
    sent. *)
Theorem scrape_short_circuits self w :
  (∃ status, fst (_safe_request self w) = Ret (None, status))
  ∨ (∃ body status,
        fst (_safe_request self w) = Ret (Some body, status)
        ∧ fst (_check_for_blocking self body status w) = Ret true) →
  ∃ t, scrape self w = (Ret None, t)
       ∧ Forall (fun e => ¬ extraction_stage_event e) t.
Proof.
  intros Hgate. rewrite scrape_unfold.
  pose proof (safe_request_stage_events self w) as H1.
  destruct (_safe_request self w) as [o1 t1]. cbn [fst snd] in *.
  destruct Hgate as [[status ->] | (body & status & -> & Hb)].
  - eauto.
  - pose proof (check_stage_events self body status w) as H2.
    destruct (_check_for_blocking self body status w) as [o2 t2].
    cbn [fst snd] in *. subst o2.
    eexists. split; [reflexivity |].
    rewrite !Forall_app. repeat split; try assumption.
    repeat constructor. simpl. tauto.
Qed.

(** C6. When the page reduces and the extraction call raises, or its
    reply does not parse as JSON, the extractor returns None without
    raising and its last act is the error log; and when [scrape] has
    reached the extractor, it returns None as well. *)
Theorem extractor_service_failure_is_soft self html w elems found e :
  soup_find_all ["price"; "prijs"; "amount"; "bedrag"] html = inr elems →
  soup_find ["product"; "artikel"; "item"] html = inr found →
  completion w (deployment_name self)
    (extraction_message (clean_html_of elems (product_section_of found))) = inl e
  ∨ (∃ content,
        completion w (deployment_name self)
          (extraction_message (clean_html_of elems (product_section_of found)))
        = inr content
        ∧ json_loads content = inl e) →
  _extract_data_with_llm self html w
  = (Ret None,
     [ EvSoup html;
       EvCompletion (deployment_name self)
         (extraction_message (clean_html_of elems (product_section_of found)));
       EvLog ERROR (LLMExtractionError e) ])
  ∧ (∀ status,
        fst (_safe_request self w) = Ret (Some html, status) →
        fst (_check_for_blocking self html status w) = Ret false →
        filesystem w "last_response.html" html = None →
        fst (scrape self w) = Ret None
        ∧ last (snd (scrape self w)) = Some (EvLog ERROR (LLMExtractionError e))).
Proof.
  intros Hall Hfind Hfail.
  assert (Hx : _extract_data_with_llm self html w
               = (Ret None,
                  [ EvSoup html;
                    EvCompletion (deployment_name self)
                      (extraction_message (clean_html_of elems (product_section_of found)));
                    EvLog ERROR (LLMExtractionError e) ])).
  { rewrite extract_unfold, Hall, Hfind. cbv zeta.
    destruct Hfail as [-> | (content & -> & ->)]; reflexivity. }
  split; [exact Hx |].
  intros status Hf Hb Hw.
  rewrite (scrape_clear_path _ _ _ _ Hf Hb). cbv zeta. rewrite Hw, Hx.
  cbn [fst snd]. split; [reflexivity |].
  rewrite !app_assoc, last_app. reflexivity.
Qed.

(** C7, as amended. When the fetch returns a body and the block verdict
    is False, the body is written to 'last_response.html', once; and
    when that write succeeds, [scrape] goes on to the extractor and
    returns what it returns. *)
Theorem debug_write_after_clear_check self w body status :
  fst (_safe_request self w) = Ret (Some body, status) →
  fst (_check_for_blocking self body status w) = Ret false →
  writes (snd (scrape self w)) = [("last_response.html", body)]
  ∧ (filesystem w "last_response.html" body = None →
     fst (scrape self w) = fst (_extract_data_with_llm self body w)).
Proof.
  intros Hf Hb. rewrite (scrape_clear_path _ _ _ _ Hf Hb). cbv zeta.
  destruct (filesystem w _ body) as [err|]; cbn [fst snd].
  - split; [| discriminate].
    now rewrite !writes_app, safe_request_writes, check_writes.
  - split; [| reflexivity].
    rewrite !writes_app, safe_request_writes, check_writes, extract_writes.
    reflexivity.
Qed.

(** When the fetch returns a body on which the block verdict is False,
    the debug write succeeds, the page reduces and the extraction reply
    parses to a JSON object, [scrape] returns that object as a record
    whose "url" is the URL given at construction and whose "timestamp"
    is the clock reading of the call; every other field is the reply's. *)
Theorem scrape_success_record (cfg : Config) (u : string) w
    body status elems found content d :
  fst (_safe_request (SmartScraper_init cfg u) w) = Ret (Some body, status) →
  fst (_check_for_blocking (SmartScraper_init cfg u) body status w) = Ret false →
  filesystem w "last_response.html" body = None →
  soup_find_all ["price"; "prijs"; "amount"; "bedrag"] body = inr elems →
  soup_find ["product"; "artikel"; "item"] body = inr found →
  completion w (AZURE_OPENAI_DEPLOYMENT_NAME cfg)
    (extraction_message (clean_html_of elems (product_section_of found)))
  = inr content →
  json_loads content = inr (JObj d) →
  ∃ r, fst (scrape (SmartScraper_init cfg u) w) = Ret (Some r)
       ∧ r !! "url" = Some (JStr u)
       ∧ r !! "timestamp" = Some (JStr (clock w))
       ∧ (∀ k, k ≠ "url" → k ≠ "timestamp" → r !! k = d !! k).
Proof.
  intros Hf Hb Hw Hall Hfind Hc Hj.
  rewrite (scrape_clear_path _ _ _ _ Hf Hb). cbv zeta. rewrite Hw. cbn [fst].
  rewrite extract_unfold, Hall, Hfind. cbv zeta.
  change (deployment_name (SmartScraper_init cfg u))
    with (AZURE_OPENAI_DEPLOYMENT_NAME cfg).
  rewrite Hc, Hj. cbn [fst url SmartScraper_init].
  eexists. split; [reflexivity |]. repeat split.
  - apply lookup_insert_eq.
  - rewrite lookup_insert_ne by discriminate. apply lookup_insert_eq.
  - intros k Hu Ht. now rewrite !lookup_insert_ne by congruence.
Qed.

(** C9. Two runs of [scrape] of the same scraper that get the same
    answers from the transport and from the completion service, and
    that both return a record, return records that agree on every field
    other than "timestamp". *)
Theorem scrape_deterministic_except_timestamp self w1 w2 r1 r2 :
  same_answers self w1 w2 →
  fst (scrape self w1) = Ret (Some r1) →
  fst (scrape self w2) = Ret (Some r2) →
  ∀ k, k ≠ "timestamp" → r1 !! k = r2 !! k.
Proof.
  intros Hsame Hr1 Hr2 k Hk.
  pose proof (safe_request_same_answers _ _ _ Hsame) as Hfetch.
  destruct Hsame as [_ Hcompl].
  destruct (scrape_some_inv _ _ _ Hr1) as (b1 & s1 & Hf1 & _ & Hx1).
  destruct (scrape_some_inv _ _ _ Hr2) as (b2 & s2 & Hf2 & _ & Hx2).
  rewrite Hf1, Hf2 in Hfetch. injection Hfetch as -> ->.
  destruct (extract_some_inv _ _ _ _ Hx1) as (el1 & fo1 & c1 & d1 & Ha1 & Hb1 & Hc1 & Hj1 & ->).
  destruct (extract_some_inv _ _ _ _ Hx2) as (el2 & fo2 & c2 & d2 & Ha2 & Hb2 & Hc2 & Hj2 & ->).
  rewrite Ha1 in Ha2. injection Ha2 as ->.
  rewrite Hb1 in Hb2. injection Hb2 as ->.
  rewrite Hcompl, Hc2 in Hc1. injection Hc1 as ->.
  rewrite Hj1 in Hj2. injection Hj2 as ->.
  destruct (decide (k = "url")) as [-> | Hu].
  - now rewrite !lookup_insert_eq.
  - now rewrite !lookup_insert_ne by congruence.
Qed.

(** C10. In every record the extractor returns, "url" is the URL given
    at construction and "timestamp" is the clock reading, whatever the
    reply of the service holds under these two keys. *)
Theorem extractor_metadata_overrides_reply (cfg : Config) (u : string) html w r :
  fst (_extract_data_with_llm (SmartScraper_init cfg u) html w) = Ret (Some r) →
  r !! "url" = Some (JStr u) ∧ r !! "timestamp" = Some (JStr (clock w)).
Proof.
  intros Hr.
  destruct (extract_some_inv _ _ _ _ Hr) as (? & ? & ? & d & _ & _ & _ & _ & ->).
  split.
  - apply lookup_insert_eq.
  - rewrite lookup_insert_ne by discriminate. apply lookup_insert_eq.
Qed.

End Claims.

(** * The claims on concrete runs *)

Section Runs.

#[local] Existing Instance Lite.libraries.

(** C1 on a page that asks for a captcha, served with status 200. *)
Lemma heuristic_block_short_circuits_witness :
  heuristic_match "Please solve the CAPTCHA" 200
  ∧ _check_for_blocking Run.scraper "Please solve the CAPTCHA" 200 Run.calm
    = (Ret true, [EvLog ERROR (BlockingDetected 200)])
  ∧ completion_calls
      (snd (_check_for_blocking Run.scraper "Please solve the CAPTCHA" 200 Run.calm))
    = [].
Proof.
  assert (Hm : heuristic_match "Please solve the CAPTCHA" 200).
  { right; right; right; left.
    exists "Please solve the ", "CAPTCHA", "". split; reflexivity. }
  split; [exact Hm |].
  exact (heuristic_block_short_circuits Run.scraper _ _ Run.calm Hm).
Defined.

(** C2 on a clear page of 1526 characters while the service is down. *)
Lemma semantic_fallback_fails_open_witness :
  ¬ heuristic_match Run.long_page 200
  ∧ String.length Run.long_page = 1526
  ∧ ∃ verdict t excerpt rest,
      _check_for_blocking Run.scraper Run.long_page 200 Run.classifier_down
      = (Ret verdict, t)
      ∧ Run.long_page = excerpt +:+ rest
      ∧ String.length excerpt = Nat.min 1000 (String.length Run.long_page)
      ∧ completion_calls t
        = [(deployment_name Run.scraper,
            blocking_prompt +:+ Str.nl +:+ Str.nl +:+ "First 1000 chars of HTML: "
            +:+ excerpt)]
      ∧ (∀ e, completion Run.classifier_down (deployment_name Run.scraper)
                (blocking_prompt +:+ Str.nl +:+ Str.nl
                 +:+ "First 1000 chars of HTML: " +:+ excerpt) = inl e →
              verdict = false)
      ∧ (∀ content e,
            completion Run.classifier_down (deployment_name Run.scraper)
              (blocking_prompt +:+ Str.nl +:+ Str.nl
               +:+ "First 1000 chars of HTML: " +:+ excerpt) = inr content →
            json_loads content = inl e →
            verdict = false).
Proof.
  assert (Hn : ¬ heuristic_match Run.long_page 200).
  { apply no_match_of_indicators. vm_compute. reflexivity. }
  split; [exact Hn |]. split; [vm_compute; reflexivity |].
  exact (semantic_fallback_fails_open Run.scraper Run.long_page 200
           Run.classifier_down Hn).
Defined.

(** C3 as the claim has it fails: the reply's price "free" comes back
    as the string it is, not as a number and not as an absent field. *)
Lemma extractor_returns_non_numeric_price :
  ∃ r, fst (_extract_data_with_llm Run.scraper Run.page Run.priced_free) = Ret (Some r)
       ∧ r !! "price" = Some (JStr "free")
       ∧ nonneg_number (JStr "free") = false.
Proof.
  exists (Run.stamped Run.fields_free Run.noon).
  repeat split; vm_compute; reflexivity.
Qed.

Lemma extractor_price_is_reply_price_witness :
  fst (_extract_data_with_llm Run.scraper Run.page Run.priced_free)
  = Ret (Some (Run.stamped Run.fields_free Run.noon))
  ∧ ∃ elems found content d,
      soup_find_all ["price"; "prijs"; "amount"; "bedrag"] Run.page = inr elems
      ∧ soup_find ["product"; "artikel"; "item"] Run.page = inr found
      ∧ completion Run.priced_free (deployment_name Run.scraper)
          (extraction_message (clean_html_of elems (product_section_of found)))
        = inr content
      ∧ json_loads content = inr (JObj d)
      ∧ Run.stamped Run.fields_free Run.noon !! "price" = d !! "price".
Proof.
  assert (Hr : fst (_extract_data_with_llm Run.scraper Run.page Run.priced_free)
               = Ret (Some (Run.stamped Run.fields_free Run.noon))).
  { vm_compute. reflexivity. }
  split; [exact Hr |].
  exact (extractor_price_is_reply_price Run.scraper Run.page Run.priced_free _ Hr).
Defined.

(** C4 on a request that times out. *)
Lemma safe_request_transport_failure_witness :
  fst (_get_headers Run.scraper Run.offline) = Ret Run.firefox_headers
  ∧ transport Run.offline (url Run.scraper) Run.firefox_headers = inl Run.timed_out
  ∧ _safe_request Run.scraper Run.offline
    = (Ret (None, 500%Z),
       [EvGet (url Run.scraper) Run.firefox_headers;
        EvLog ERROR (RequestFailed Run.timed_out)])
  ∧ get_calls (snd (_safe_request Run.scraper Run.offline))
    = [(url Run.scraper, Run.firefox_headers)].
Proof.
  assert (Hhd : fst (_get_headers Run.scraper Run.offline) = Ret Run.firefox_headers).
  { vm_compute. reflexivity. }
  assert (Ht : transport Run.offline (url Run.scraper) Run.firefox_headers
               = inl Run.timed_out).
  { reflexivity. }
  split; [exact Hhd |]. split; [exact Ht |].
  exact (safe_request_transport_failure Run.scraper Run.offline _ _ Hhd Ht).
Defined.

(** C5 on a page served with status 403. *)
Lemma scrape_short_circuits_witness :
  ((∃ status, fst (_safe_request Run.scraper Run.refused) = Ret (None, status))
   ∨ (∃ body status,
         fst (_safe_request Run.scraper Run.refused) = Ret (Some body, status)
         ∧ fst (_check_for_blocking Run.scraper body status Run.refused) = Ret true))
  ∧ ∃ t, scrape Run.scraper Run.refused = (Ret None, t)
         ∧ Forall (fun e => ¬ extraction_stage_event e) t.
Proof.
  assert (Hgate :
    (∃ status, fst (_safe_request Run.scraper Run.refused) = Ret (None, status))
    ∨ (∃ body status,
          fst (_safe_request Run.scraper Run.refused) = Ret (Some body, status)
          ∧ fst (_check_for_blocking Run.scraper body status Run.refused) = Ret true)).
  { right. exists Run.forbidden, 403%Z. split; vm_compute; reflexivity. }
  split; [exact Hgate |].
  exact (scrape_short_circuits Run.scraper Run.refused Hgate).
Defined.

(** C6 on a clear page while the extraction call raises. *)
Lemma extractor_service_failure_is_soft_witness :
  soup_find_all ["price"; "prijs"; "amount"; "bedrag"] Run.page = inr []
  ∧ soup_find ["product"; "artikel"; "item"] Run.page = inr None
  ∧ (completion Run.extractor_down (deployment_name Run.scraper)
       (extraction_message (clean_html_of [] (product_section_of None)))
     = inl Run.service_down
     ∨ (∃ content,
           completion Run.extractor_down (deployment_name Run.scraper)
             (extraction_message (clean_html_of [] (product_section_of None)))
           = inr content
           ∧ json_loads content = inl Run.service_down))
  ∧ _extract_data_with_llm Run.scraper Run.page Run.extractor_down
    = (Ret None,
       [ EvSoup Run.page;
         EvCompletion (deployment_name Run.scraper)
           (extraction_message (clean_html_of [] (product_section_of None)));
         EvLog ERROR (LLMExtractionError Run.service_down) ])
  ∧ (∀ status,
        fst (_safe_request Run.scraper Run.extractor_down) = Ret (Some Run.page, status) →
        fst (_check_for_blocking Run.scraper Run.page status Run.extractor_down)
        = Ret false →
        filesystem Run.extractor_down "last_response.html" Run.page = None →
        fst (scrape Run.scraper Run.extractor_down) = Ret None
        ∧ last (snd (scrape Run.scraper Run.extractor_down))
          = Some (EvLog ERROR (LLMExtractionError Run.service_down))).
Proof.
  assert (Hall : soup_find_all ["price"; "prijs"; "amount"; "bedrag"] Run.page = inr []).
  { vm_compute. reflexivity. }
  assert (Hfind : soup_find ["product"; "artikel"; "item"] Run.page = inr None).
  { vm_compute. reflexivity. }
  assert (Hfail :
    completion Run.extractor_down (deployment_name Run.scraper)
      (extraction_message (clean_html_of [] (product_section_of None)))
    = inl Run.service_down
    ∨ (∃ content,
          completion Run.extractor_down (deployment_name Run.scraper)
            (extraction_message (clean_html_of [] (product_section_of None)))
          = inr content
          ∧ json_loads content = inl Run.service_down)).
  { left. vm_compute. reflexivity. }
  split; [exact Hall |]. split; [exact Hfind |]. split; [exact Hfail |].
  exact (extractor_service_failure_is_soft Run.scraper Run.page Run.extractor_down
           [] None Run.service_down Hall Hfind Hfail).
Defined.

(** C7 as the claim has it fails: a page served with status 403 is a
    body the fetch returns, and it is not written anywhere. *)
Lemma blocked_body_is_not_persisted :
  fst (_safe_request Run.scraper Run.refused) = Ret (Some Run.forbidden, 403%Z)
  ∧ fst (scrape Run.scraper Run.refused) = Ret None
  ∧ writes (snd (scrape Run.scraper Run.refused)) = [].
Proof. repeat split; vm_compute; reflexivity. Qed.

(** When the debug file cannot be written, the error of the write leaves
    [scrape], and the extractor is not reached. *)
Example scrape_write_failure_raises :
  fst (scrape Run.scraper Run.full_disk) = Raise Run.disk_full
  ∧ completion_calls (snd (scrape Run.scraper Run.full_disk))
    = [(deployment_name Run.scraper, blocking_message Run.page)].
Proof. split; vm_compute; reflexivity. Qed.

Lemma debug_write_after_clear_check_witness :
  fst (_safe_request Run.scraper Run.calm) = Ret (Some Run.page, 200%Z)
  ∧ fst (_check_for_blocking Run.scraper Run.page 200 Run.calm) = Ret false
  ∧ writes (snd (scrape Run.scraper Run.calm)) = [("last_response.html", Run.page)]
  ∧ (filesystem Run.calm "last_response.html" Run.page = None →
     fst (scrape Run.scraper Run.calm)
     = fst (_extract_data_with_llm Run.scraper Run.page Run.calm)).
Proof.
  assert (Hf : fst (_safe_request Run.scraper Run.calm) = Ret (Some Run.page, 200%Z)).
  { vm_compute. reflexivity. }
  assert (Hb : fst (_check_for_blocking Run.scraper Run.page 200 Run.calm) = Ret false).
  { vm_compute. reflexivity. }
  split; [exact Hf |]. split; [exact Hb |].
  exact (debug_write_after_clear_check Run.scraper Run.calm Run.page 200%Z Hf Hb).
Defined.


Lemma scrape_success_record_witness :
  fst (_safe_request (SmartScraper_init Run.cfg Run.shop) Run.calm)
  = Ret (Some Run.page, 200%Z)
  ∧ fst (_check_for_blocking (SmartScraper_init Run.cfg Run.shop) Run.page 200 Run.calm)
    = Ret false
  ∧ filesystem Run.calm "last_response.html" Run.page = None
  ∧ soup_find_all ["price"; "prijs"; "amount"; "bedrag"] Run.page = inr []
  ∧ soup_find ["product"; "artikel"; "item"] Run.page = inr None
  ∧ completion Run.calm (AZURE_OPENAI_DEPLOYMENT_NAME Run.cfg)
      (extraction_message (clean_html_of [] (product_section_of None)))
    = inr Run.reply_ok
  ∧ json_loads Run.reply_ok = inr (JObj Run.fields_ok)
  ∧ ∃ r, fst (scrape (SmartScraper_init Run.cfg Run.shop) Run.calm) = Ret (Some r)
         ∧ r !! "url" = Some (JStr Run.shop)
         ∧ r !! "timestamp" = Some (JStr (clock Run.calm))
         ∧ (∀ k, k ≠ "url" → k ≠ "timestamp" → r !! k = Run.fields_ok !! k).
Proof.
  assert (Hf : fst (_safe_request (SmartScraper_init Run.cfg Run.shop) Run.calm)
               = Ret (Some Run.page, 200%Z)).
  { vm_compute. reflexivity. }
  assert (Hb : fst (_check_for_blocking (SmartScraper_init Run.cfg Run.shop)
                      Run.page 200 Run.calm) = Ret false).
  { vm_compute. reflexivity. }
  assert (Hw : filesystem Run.calm "last_response.html" Run.page = None).
  { reflexivity. }
  assert (Hall : soup_find_all ["price"; "prijs"; "amount"; "bedrag"] Run.page = inr []).
  { vm_compute. reflexivity. }
  assert (Hfind : soup_find ["product"; "artikel"; "item"] Run.page = inr None).
  { vm_compute. reflexivity. }
  assert (Hc : completion Run.calm (AZURE_OPENAI_DEPLOYMENT_NAME Run.cfg)
                 (extraction_message (clean_html_of [] (product_section_of None)))
               = inr Run.reply_ok).
  { vm_compute. reflexivity. }
  assert (Hj : json_loads Run.reply_ok = inr (JObj Run.fields_ok)).
  { vm_compute. reflexivity. }
  repeat (split; [assumption |]).
  exact (scrape_success_record Run.cfg Run.shop Run.calm Run.page 200%Z [] None
           Run.reply_ok Run.fields_ok Hf Hb Hw Hall Hfind Hc Hj).
Defined.

(** C9 on two runs at different times, with different user agents. *)
Lemma scrape_deterministic_except_timestamp_witness :
  same_answers Run.scraper Run.calm Run.calm_later
  ∧ fst (scrape Run.scraper Run.calm) = Ret (Some (Run.stamped Run.fields_ok Run.noon))
  ∧ fst (scrape Run.scraper Run.calm_later)
    = Ret (Some (Run.stamped Run.fields_ok Run.midnight))
  ∧ ∀ k, k ≠ "timestamp" →
         Run.stamped Run.fields_ok Run.noon !! k
         = Run.stamped Run.fields_ok Run.midnight !! k.
Proof.
  assert (Hsame : same_answers Run.scraper Run.calm Run.calm_later).
  { split; intros; reflexivity. }
  assert (H1 : fst (scrape Run.scraper Run.calm)
               = Ret (Some (Run.stamped Run.fields_ok Run.noon))).
  { vm_compute. reflexivity. }
  assert (H2 : fst (scrape Run.scraper Run.calm_later)
               = Ret (Some (Run.stamped Run.fields_ok Run.midnight))).
  { vm_compute. reflexivity. }
  repeat (split; [assumption |]).
  exact (scrape_deterministic_except_timestamp Run.scraper Run.calm Run.calm_later
           _ _ Hsame H1 H2).
Defined.

(** C10 on a reply that brings its own "url" and "timestamp". *)
Lemma extractor_metadata_overrides_reply_witness :
  json_loads Run.reply_own_url = inr (JObj Run.fields_own_url)
  ∧ Run.fields_own_url !! "url" = Some (JStr "https://other.example/")
  ∧ fst (_extract_data_with_llm (SmartScraper_init Run.cfg Run.shop) Run.page
           Run.replies_own_url)
    = Ret (Some (Run.stamped Run.fields_own_url Run.noon))
  ∧ Run.stamped Run.fields_own_url Run.noon !! "url" = Some (JStr Run.shop)
  ∧ Run.stamped Run.fields_own_url Run.noon !! "timestamp"
    = Some (JStr (clock Run.replies_own_url)).
Proof.
  assert (Hr : fst (_extract_data_with_llm (SmartScraper_init Run.cfg Run.shop) Run.page
                      Run.replies_own_url)
               = Ret (Some (Run.stamped Run.fields_own_url Run.noon))).
  { vm_compute. reflexivity. }
  split; [vm_compute; reflexivity |]. split; [vm_compute; reflexivity |].
  split; [exact Hr |].
  exact (extractor_metadata_overrides_reply Run.cfg Run.shop Run.page
           Run.replies_own_url _ Hr).
Defined.

(** The reader on a reply that prices the product with a decimal
    number: 9.99 is read as the double nearest to it. *)
Example decimal_price_is_read_as_double :
  json_loads ("{" +:+ Run.member "price" "9.99" +:+ "}")
  = inr (JObj (list_to_map
                 [("price", JFloat (FFinite false 5623870034678907 (-49)))])).
Proof. vm_compute. reflexivity. Qed.

End Runs.

(** * Further properties of the source *)

Section Further.

Context `{Libraries}.

Implicit Types (w : world) (self : SmartScraper) (t : list event).

(** ** Strings and traces *)

Lemma length_append (a b : string) :
  String.length (a +:+ b) = String.length a + String.length b.
Proof. induction a as [|c a IH]; simpl; [reflexivity | now rewrite IH]. Qed.

Lemma slice_to_all (n : nat) (s : string) :
  (String.length s <= n)%nat → Str.slice_to n s = s.
Proof.
  revert s. induction n as [|n IH]; intros [|c s] Hl; simpl in *;
    try reflexivity; try lia.
  rewrite IH by lia. reflexivity.
Qed.

Lemma slice_to_app_long (n : nat) (a b : string) :
  (n <= String.length a)%nat → Str.slice_to n (a +:+ b) = Str.slice_to n a.
Proof.
  revert a. induction n as [|n IH]; intros [|c a] Hl; simpl in *;
    try reflexivity; try lia.
  rewrite IH by lia. reflexivity.
Qed.

Lemma completion_calls_app t t' :
  completion_calls (t ++ t') = completion_calls t ++ completion_calls t'.
Proof.
  induction t as [|e t IH]; [reflexivity |].
  destruct e; simpl; now rewrite IH.
Qed.

Lemma get_calls_app t t' : get_calls (t ++ t') = get_calls t ++ get_calls t'.
Proof.
  induction t as [|e t IH]; [reflexivity |].
  destruct e; simpl; now rewrite IH.
Qed.

Lemma parses_app t t' : parses (t ++ t') = parses t ++ parses t'.
Proof.
  induction t as [|e t IH]; [reflexivity |].
  destruct e; simpl; now rewrite IH.
Qed.

(** ** [_get_headers] and [_safe_request] *)

(** X1. With a pool that is not empty, the headers are the five fixed
    ones and a User-Agent that is one of the pool; drawing them touches
    nothing outside. *)
Theorem get_headers_user_agent_from_pool self w :
  user_agents self ≠ [] →
  ∃ ua, ua ∈ user_agents self
        ∧ _get_headers self w
          = (Ret [ ("User-Agent", ua);
                   ("Accept", "text/html,application/xhtml+xml,application/xml;q=0.9,*/*;q=0.8");
                   ("Accept-Language", "en-US,en;q=0.5");
                   ("Accept-Encoding", "gzip, deflate, br");
                   ("DNT", "1");
                   ("Connection", "keep-alive") ], []).
Proof.
  intros Hne. unfold _get_headers, bind, random_choice, ret.
  destruct (user_agents self) as [|a pool] eqn:Hp; [congruence |].
  exists (nth (rng w mod length (a :: pool)) (a :: pool) "").
  split; [| reflexivity].
  apply list_elem_of_In, nth_In, Nat.mod_upper_bound. simpl. lia.
Qed.

(** X2. When the transport answers, the fetch returns the body and the
    status as they came, after one GET of the scraper's URL and nothing
    else; a status 500 of the server keeps its body. *)
Theorem safe_request_passes_response self w hd body status :
  fst (_get_headers self w) = Ret hd →
  transport w (url self) hd = inr (body, status) →
  _safe_request self w = (Ret (Some body, status), [EvGet (url self) hd]).
Proof. intros Hhd Ht. rewrite safe_request_unfold, Hhd, Ht. reflexivity. Qed.

(** X3. The fetch never raises, whatever the transport and the pool do;
    a missing body always comes with status 500; and it makes at most
    one GET, no completion call, no write and no parse. *)
Theorem safe_request_never_raises self w :
  ∃ body status t,
    _safe_request self w = (Ret (body, status), t)
    ∧ (body = None → status = 500%Z)
    ∧ (length (get_calls t) <= 1)%nat
    ∧ completion_calls t = []
    ∧ writes t = []
    ∧ parses t = [].
Proof.
  rewrite safe_request_unfold.
  destruct (fst (_get_headers self w)) as [hd|e].
  - destruct (transport w (url self) hd) as [e|[body status]].
    + eexists _, _, _. split; [reflexivity |]. simpl. repeat split; lia.
    + eexists _, _, _. split; [reflexivity |]. simpl.
      repeat split; try lia. discriminate.
  - eexists _, _, _. split; [reflexivity |]. simpl. repeat split; lia.
Qed.

(** X4. A scraper made by the constructor sends exactly one GET in every
    fetch, to the URL it was constructed with. *)
Theorem constructed_scraper_sends_one_get (cfg : Config) (u : string) w :
  ∃ hd, fst (_get_headers (SmartScraper_init cfg u) w) = Ret hd
        ∧ get_calls (snd (_safe_request (SmartScraper_init cfg u) w)) = [(u, hd)].
Proof.
  destruct (get_headers_init cfg u w) as [hd Hhd].
  exists hd. rewrite safe_request_unfold, Hhd. cbn [fst]. split; [reflexivity |].
  destruct (transport w _ hd); reflexivity.
Qed.

(** ** [_check_for_blocking] *)

(** X5. The block detection never raises, and its verdict is True
    exactly when a heuristic matches or the reply of the service parses
    to an object whose "is_blocked" is truthy. *)
Theorem check_verdict_iff self body status w :
  ∃ verdict t,
    _check_for_blocking self body status w = (Ret verdict, t)
    ∧ (verdict = true ↔
       heuristic_match body status
       ∨ ∃ content d,
           completion w (deployment_name self) (blocking_message body) = inr content
           ∧ json_loads content = inr (JObj d)
           ∧ truthy (d !! "is_blocked") = true).
Proof.
  destruct (any (blocking_indicators body status)) eqn:Hany.
  - rewrite check_heuristic by assumption. eexists _, _. split; [reflexivity |].
    split; [intros _; left; now apply any_blocking_indicators | reflexivity].
  - pose proof (no_match_of_indicators _ _ Hany) as Hn.
    rewrite check_semantic by assumption. cbv zeta.
    destruct (completion w _ _) as [e|content] eqn:Hc.
    { eexists _, _. split; [reflexivity |].
      split; [discriminate | intros [? | (? & ? & ? & _)]; [contradiction | congruence]]. }
    destruct (json_loads content) as [e|v] eqn:Hj.
    { eexists _, _. split; [reflexivity |].
      split; [discriminate |].
      intros [? | (c & d & Hc' & Hj' & _)]; [contradiction | congruence]. }
    destruct v;
      try (eexists _, _; split; [reflexivity |];
           split; [discriminate |];
           intros [? | (c & d' & Hc' & Hj' & _)]; [contradiction | congruence]).
    destruct (truthy (d !! "is_blocked")) eqn:Ht.
    + eexists _, _. split; [reflexivity |].
      split; [intros _; right; eauto | reflexivity].
    + eexists _, _. split; [reflexivity |].
      split; [discriminate |].
      intros [? | (c & d' & Hc' & Hj' & Ht')]; [contradiction |].
      assert (d' = d) by congruence. subst d'. congruence.
Qed.

(** X6. A reply that parses to anything but an object (an array, a
    string, a number, null) makes [result.get] raise; the error is
    logged and the verdict is False. *)
Theorem check_non_object_reply_fails_open self body status w content v :
  ¬ heuristic_match body status →
  completion w (deployment_name self) (blocking_message body) = inr content →
  json_loads content = inr v →
  (∀ d, v ≠ JObj d) →
  _check_for_blocking self body status w
  = (Ret false,
     [ EvCompletion (deployment_name self) (blocking_message body);
       EvLog ERROR (LLMBlockingCheckError (AttributeError v "get")) ]).
Proof.
  intros Hn Hc Hj Hv. apply indicators_of_no_match in Hn.
  rewrite check_semantic by assumption. cbv zeta. rewrite Hc, Hj.
  destruct v; try reflexivity. now destruct (Hv d).
Qed.

(** X7. The flag is tested for truth, not for being [true]: a reply
    whose "is_blocked" is any string that is not empty, the string
    "false" too, gives the verdict True, and the reason logged is what
    the reply holds under "reason". *)
Theorem check_string_flag_blocks self body status w content d s :
  ¬ heuristic_match body status →
  completion w (deployment_name self) (blocking_message body) = inr content →
  json_loads content = inr (JObj d) →
  d !! "is_blocked" = Some (JStr s) →
  s ≠ "" →
  _check_for_blocking self body status w
  = (Ret true,
     [ EvCompletion (deployment_name self) (blocking_message body);
       EvLog ERROR (LLMDetectedBlocking (d !! "reason")) ]).
Proof.
  intros Hn Hc Hj Hd Hs. apply indicators_of_no_match in Hn.
  rewrite check_semantic by assumption. cbv zeta. rewrite Hc, Hj, Hd.
  simpl. destruct (String.eqb_spec s ""); [contradiction | reflexivity].
Qed.

(** X8. Whatever is sent to the service by the block detection is the
    prompt followed by an excerpt of the body: a prefix of it, of at
    most 1000 characters. *)
Theorem check_sends_bounded_excerpt self body status w :
  Forall
    (fun call =>
       fst call = deployment_name self
       ∧ ∃ excerpt rest,
           snd call = blocking_prompt +:+ Str.nl +:+ Str.nl
                      +:+ "First 1000 chars of HTML: " +:+ excerpt
           ∧ body = excerpt +:+ rest
           ∧ (String.length excerpt <= 1000)%nat)
    (completion_calls (snd (_check_for_blocking self body status w))).
Proof.
  assert (Hcall : fst (deployment_name self, blocking_message body) = deployment_name self
                  ∧ ∃ excerpt rest,
                      snd (deployment_name self, blocking_message body)
                      = blocking_prompt +:+ Str.nl +:+ Str.nl
                        +:+ "First 1000 chars of HTML: " +:+ excerpt
                      ∧ body = excerpt +:+ rest
                      ∧ (String.length excerpt <= 1000)%nat).
  { split; [reflexivity |].
    destruct (slice_to_prefix 1000 body) as [rest Hrest].
    exists (Str.slice_to 1000 body), rest. split; [reflexivity |].
    split; [exact Hrest |]. rewrite slice_to_length. lia. }
  destruct (any (blocking_indicators body status)) eqn:Hany.
  - rewrite check_heuristic by assumption. constructor.
  - rewrite check_semantic by assumption. cbv zeta.
    destruct (completion w _ _) as [e|content];
      [cbn [snd completion_calls]; constructor; [exact Hcall | constructor] |].
    destruct (json_loads content) as [e|[]];
      try (cbn [snd completion_calls]; constructor; [exact Hcall | constructor]).
    destruct (truthy _);
      cbn [snd completion_calls]; constructor; solve [exact Hcall | constructor].
Qed.

(** X9. The block detection sends no GET, writes no file and parses no
    page; it calls the completion service at most once. *)
Theorem check_touches_only_the_service self body status w :
  get_calls (snd (_check_for_blocking self body status w)) = []
  ∧ writes (snd (_check_for_blocking self body status w)) = []
  ∧ parses (snd (_check_for_blocking self body status w)) = []
  ∧ (length (completion_calls (snd (_check_for_blocking self body status w))) <= 1)%nat.
Proof.
  destruct (any (blocking_indicators body status)) eqn:Hany.
  - rewrite check_heuristic by assumption. simpl. repeat split; lia.
  - rewrite check_semantic by assumption. cbv zeta.
    destruct (completion w _ _) as [e|content]; [simpl; repeat split; lia |].
    destruct (json_loads content) as [e|[]]; try (simpl; repeat split; lia).
    destruct (truthy _); simpl; repeat split; lia.
Qed.

(** ** [_extract_data_with_llm] *)

(** What the extractor leaves in the trace: the parse first, then at
    most one completion call, and no GET and no write. *)
Lemma extract_counts self html w :
  ∃ result t,
    _extract_data_with_llm self html w = (Ret result, EvSoup html :: t)
    ∧ parses t = []
    ∧ get_calls t = []
    ∧ writes t = []
    ∧ (length (completion_calls t) <= 1)%nat.
Proof.
  rewrite extract_unfold. cbv zeta.
  destruct (soup_find_all _ html); [eexists _, _; split; [reflexivity |]; simpl; auto |].
  destruct (soup_find _ html); [eexists _, _; split; [reflexivity |]; simpl; auto |].
  destruct (completion w _ _) as [e|content];
    [eexists _, _; split; [reflexivity |]; simpl; auto |].
  destruct (json_loads content) as [e|[]];
    eexists _, _; (split; [reflexivity |]); simpl; auto.
Qed.

(** X10. The extractor never raises, whatever the parser, the service
    and the reply do; it parses the page it is given, once and first,
    calls the completion service at most once, and sends no GET and
    writes no file. *)
Theorem extract_never_raises self html w :
  ∃ result t,
    _extract_data_with_llm self html w = (Ret result, EvSoup html :: t)
    ∧ parses (EvSoup html :: t) = [html]
    ∧ get_calls t = []
    ∧ writes t = []
    ∧ (length (completion_calls t) <= 1)%nat.
Proof.
  destruct (extract_counts self html w) as (result & t & E & Hp & Hg & Hw & Hc).
  exists result, t. simpl. rewrite Hp. auto.
Qed.

(** X12. A reply that parses to anything but an object has no [update]:
    the extractor logs the AttributeError naming the type of the value
    and returns None. *)
Theorem extract_non_object_reply_gives_none self html w elems found content v :
  soup_find_all ["price"; "prijs"; "amount"; "bedrag"] html = inr elems →
  soup_find ["product"; "artikel"; "item"] html = inr found →
  completion w (deployment_name self)
    (extraction_message (clean_html_of elems (product_section_of found)))
  = inr content →
  json_loads content = inr v →
  (∀ d, v ≠ JObj d) →
  _extract_data_with_llm self html w
  = (Ret None,
     [ EvSoup html;
       EvCompletion (deployment_name self)
         (extraction_message (clean_html_of elems (product_section_of found)));
       EvLog ERROR (LLMExtractionError (AttributeError v "update")) ]).
Proof.
  intros Hall Hfind Hc Hj Hv. rewrite extract_unfold, Hall, Hfind. cbv zeta.
  rewrite Hc, Hj. destruct v; try reflexivity. now destruct (Hv d).
Qed.

(** X13. The keys of a returned record are the keys of the parsed reply
    together with "url" and "timestamp": nothing is dropped, nothing
    else is added. *)
Theorem extract_record_keys self html w r :
  fst (_extract_data_with_llm self html w) = Ret (Some r) →
  ∃ elems found content d,
    completion w (deployment_name self)
      (extraction_message (clean_html_of elems (product_section_of found)))
    = inr content
    ∧ json_loads content = inr (JObj d)
    ∧ dom r = {["url"; "timestamp"]} ∪ dom d.
Proof.
  intros Hr.
  destruct (extract_some_inv _ _ _ _ Hr)
    as (elems & found & content & d & _ & _ & Hc & Hj & ->).
  exists elems, found, content, d. repeat split; try assumption.
  rewrite !dom_insert_L, (assoc_L (∪)). reflexivity.
Qed.

(** X14. The reduced page is cut at 4000 characters before it is sent:
    once the joined price elements reach 3951 characters, nothing of
    the product section is left in the message. *)
Theorem long_price_elements_crowd_out_product
    (elems : list string) (section1 section2 : string) :
  (3951 <= String.length (Str.join " " elems))%nat →
  extraction_message (clean_html_of elems section1)
  = extraction_message (clean_html_of elems section2).
Proof.
  intros Hlong.
  set (head := Str.nl +:+ indent +:+ "Price-related elements:" +:+ Str.nl +:+ indent).
  set (tail := fun section =>
                 Str.nl +:+ indent +:+ Str.nl +:+ indent +:+ "Product section:"
                 +:+ Str.nl +:+ indent +:+ section +:+ Str.nl +:+ indent).
  assert (E : ∀ section,
             clean_html_of elems section
             = (head +:+ Str.join " " elems) +:+ tail section) by reflexivity.
  assert (Hhead : String.length head = 49) by reflexivity.
  unfold extraction_message. rewrite !E.
  rewrite (slice_to_app_long 4000 (head +:+ Str.join " " elems) (tail section1))
    by (rewrite length_append, Hhead; lia).
  rewrite (slice_to_app_long 4000 (head +:+ Str.join " " elems) (tail section2))
    by (rewrite length_append, Hhead; lia).
  reflexivity.
Qed.

(** X15. Whatever is sent to the service by the extractor is the prompt
    followed by an excerpt of at most 4000 characters. *)
Theorem extract_sends_bounded_excerpt self html w :
  Forall
    (fun call =>
       fst call = deployment_name self
       ∧ ∃ excerpt,
           snd call = extraction_prompt +:+ Str.nl +:+ Str.nl
                      +:+ "HTML content: " +:+ excerpt
           ∧ (String.length excerpt <= 4000)%nat)
    (completion_calls (snd (_extract_data_with_llm self html w))).
Proof.
  assert (Hcall : ∀ clean,
            fst (deployment_name self, extraction_message clean) = deployment_name self
            ∧ ∃ excerpt,
                snd (deployment_name self, extraction_message clean)
                = extraction_prompt +:+ Str.nl +:+ Str.nl
                  +:+ "HTML content: " +:+ excerpt
                ∧ (String.length excerpt <= 4000)%nat).
  { intros clean. split; [reflexivity |].
    exists (Str.slice_to 4000 clean). split; [reflexivity |].
    rewrite slice_to_length. lia. }
  rewrite extract_unfold. cbv zeta.
  destruct (soup_find_all _ html); [constructor |].
  destruct (soup_find _ html); [constructor |].
  destruct (completion w _ _) as [e|content];
    [cbn [snd app completion_calls]; constructor; [apply Hcall | constructor] |].
  destruct (json_loads content) as [e|[]];
    cbn [snd app completion_calls]; constructor; solve [apply Hcall | constructor].
Qed.

(** ** [scrape] *)

Lemma safe_request_counts self w :
  ∃ fetched t,
    _safe_request self w = (Ret fetched, t)
    ∧ (length (get_calls t) <= 1)%nat
    ∧ completion_calls t = []
    ∧ writes t = []
    ∧ parses t = [].
Proof.
  rewrite safe_request_unfold.
  destruct (fst (_get_headers self w)) as [hd|e];
    [destruct (transport w (url self) hd) |];
    eexists _, _; (split; [reflexivity |]); simpl; auto.
Qed.

Lemma check_counts self body status w :
  ∃ verdict t,
    _check_for_blocking self body status w = (Ret verdict, t)
    ∧ get_calls t = []
    ∧ writes t = []
    ∧ parses t = []
    ∧ (length (completion_calls t) <= 1)%nat.
Proof.
  destruct (any (blocking_indicators body status)) eqn:Hany.
  - rewrite check_heuristic by assumption.
    eexists _, _. split; [reflexivity |]. simpl. auto.
  - rewrite check_semantic by assumption. cbv zeta.
    destruct (completion w _ _) as [e|content];
      [eexists _, _; split; [reflexivity |]; simpl; auto |].
    destruct (json_loads content) as [e|[]];
      try (eexists _, _; split; [reflexivity |]; simpl; auto).
    destruct (truthy _); eexists _, _; (split; [reflexivity |]); simpl; auto.
Qed.

(** A fetch that returns a body returns what the transport answered to
    its one GET, and has done nothing else. *)
Lemma safe_request_answer self w body status :
  fst (_safe_request self w) = Ret (Some body, status) →
  ∃ hd, fst (_get_headers self w) = Ret hd
        ∧ transport w (url self) hd = inr (body, status)
        ∧ snd (_safe_request self w) = [EvGet (url self) hd].
Proof.
  rewrite safe_request_unfold.
  destruct (fst (_get_headers self w)) as [hd|e]; [| discriminate].
  destruct (transport w (url self) hd) as [e|[b s]] eqn:Ht; [discriminate |].
  cbn [fst snd]. intros [= -> ->]. eauto.
Qed.

(** A False verdict comes from the semantic stage, after its one call. *)
Lemma check_false_calls self body status w :
  fst (_check_for_blocking self body status w) = Ret false →
  completion_calls (snd (_check_for_blocking self body status w))
  = [(deployment_name self, blocking_message body)].
Proof.
  destruct (any (blocking_indicators body status)) eqn:Hany.
  - rewrite check_heuristic by assumption. discriminate.
  - rewrite check_semantic by assumption. cbv zeta.
    destruct (completion w _ _) as [e|content]; [reflexivity |].
    destruct (json_loads content) as [e|[]]; try reflexivity.
    destruct (truthy _); [discriminate | reflexivity].
Qed.

(** A returned record comes after the parse of the page and the one
    call, made on what the parser selected from the page. *)
Lemma extract_some_answer self html w r :
  fst (_extract_data_with_llm self html w) = Ret (Some r) →
  ∃ elems found,
    soup_find_all ["price"; "prijs"; "amount"; "bedrag"] html = inr elems
    ∧ soup_find ["product"; "artikel"; "item"] html = inr found
    ∧ snd (_extract_data_with_llm self html w)
      = [ EvSoup html;
          EvCompletion (deployment_name self)
            (extraction_message (clean_html_of elems (product_section_of found))) ].
Proof.
  rewrite extract_unfold. cbv zeta.
  destruct (soup_find_all _ html) as [e|elems]; [discriminate |].
  destruct (soup_find _ html) as [e|found]; [discriminate |].
  destruct (completion w _ _) as [e|content]; [discriminate |].
  destruct (json_loads content) as [e|[]]; try discriminate. eauto.
Qed.

(** X16. [scrape] raises in one case only: a body was fetched, the
    verdict was False, and the debug file could not be written; what it
    raises is the error of that write. *)
Theorem scrape_raises_iff self w e :
  fst (scrape self w) = Raise e ↔
  ∃ body status,
    fst (_safe_request self w) = Ret (Some body, status)
    ∧ fst (_check_for_blocking self body status w) = Ret false
    ∧ filesystem w "last_response.html" body = Some e.
Proof.
  split.
  - rewrite scrape_unfold.
    destruct (safe_request_total self w) as (fetched & t1 & ->).
    destruct fetched as [[body|] status]; [| discriminate].
    destruct (check_total self body status w) as (verdict & t2 & Hc). rewrite Hc.
    destruct verdict; [discriminate |].
    destruct (filesystem w _ body) as [err|] eqn:Hw.
    + intros [= ->]. exists body, status. rewrite Hc. auto.
    + destruct (extract_total self body w) as (r & t3 & ->). discriminate.
  - intros (body & status & Hf & Hb & Hw).
    rewrite (scrape_clear_path _ _ _ _ Hf Hb). cbv zeta. now rewrite Hw.
Qed.

(** X17. [scrape] returns a record exactly when a body was fetched, the
    verdict was False, the debug file was written and the extractor
    returned that record. *)
Theorem scrape_returns_record_iff self w r :
  fst (scrape self w) = Ret (Some r) ↔
  ∃ body status,
    fst (_safe_request self w) = Ret (Some body, status)
    ∧ fst (_check_for_blocking self body status w) = Ret false
    ∧ filesystem w "last_response.html" body = None
    ∧ fst (_extract_data_with_llm self body w) = Ret (Some r).
Proof.
  split.
  - rewrite scrape_unfold.
    destruct (safe_request_total self w) as (fetched & t1 & ->).
    destruct fetched as [[body|] status]; [| discriminate].
    destruct (check_total self body status w) as (verdict & t2 & Hc). rewrite Hc.
    destruct verdict; [discriminate |].
    destruct (filesystem w _ body) as [err|] eqn:Hw; [discriminate |].
    destruct (_extract_data_with_llm self body w) as [o t3] eqn:Hx.
    cbn [fst]. intros ->. exists body, status. rewrite Hc, Hx. auto.
  - intros (body & status & Hf & Hb & Hw & Hx).
    rewrite (scrape_clear_path _ _ _ _ Hf Hb). cbv zeta. now rewrite Hw.
Qed.

(** X18. A run of [scrape] that returns a record has sent one GET,
    with the headers drawn, and has gone on with the body the transport
    answered: it has made two completion calls, the blocking check on
    that body and then the extraction on what the parser selected from
    that body, has written that body once and parsed it once. *)
Theorem scrape_success_calls self w r :
  fst (scrape self w) = Ret (Some r) →
  ∃ hd body status elems found,
    fst (_get_headers self w) = Ret hd
    ∧ transport w (url self) hd = inr (body, status)
    ∧ soup_find_all ["price"; "prijs"; "amount"; "bedrag"] body = inr elems
    ∧ soup_find ["product"; "artikel"; "item"] body = inr found
    ∧ get_calls (snd (scrape self w)) = [(url self, hd)]
    ∧ completion_calls (snd (scrape self w))
      = [ (deployment_name self, blocking_message body);
          (deployment_name self,
           extraction_message (clean_html_of elems (product_section_of found))) ]
    ∧ writes (snd (scrape self w)) = [("last_response.html", body)]
    ∧ parses (snd (scrape self w)) = [body].
Proof.
  intros Hr.
  assert (Hinv : ∃ body status,
             fst (_safe_request self w) = Ret (Some body, status)
             ∧ fst (_check_for_blocking self body status w) = Ret false
             ∧ filesystem w "last_response.html" body = None
             ∧ fst (_extract_data_with_llm self body w) = Ret (Some r)).
  { revert Hr. rewrite scrape_unfold.
    destruct (safe_request_total self w) as (fetched & t1 & ->).
    destruct fetched as [[body|] status]; [| discriminate].
    destruct (check_total self body status w) as (verdict & t2 & Hc). rewrite Hc.
    destruct verdict; [discriminate |].
    destruct (filesystem w _ body) as [err|] eqn:Hw; [discriminate |].
    destruct (_extract_data_with_llm self body w) as [o t3] eqn:Hx.
    cbn [fst]. intros ->. exists body, status. rewrite Hc, Hx. auto. }
  destruct Hinv as (body & status & Hf & Hb & Hw & Hx).
  destruct (safe_request_answer _ _ _ _ Hf) as (hd & Hhd & Htr & Ht1).
  pose proof (check_false_calls _ _ _ _ Hb) as Hcalls.
  destruct (check_counts self body status w) as (v & t2 & Hc & Hg2 & Hw2 & Hp2 & _).
  destruct (extract_some_answer _ _ _ _ Hx) as (elems & found & Hall & Hfind & Ht3).
  exists hd, body, status, elems, found.
  split; [exact Hhd |]. split; [exact Htr |].
  split; [exact Hall |]. split; [exact Hfind |].
  rewrite (scrape_clear_path _ _ _ _ Hf Hb). cbv zeta. rewrite Hw. cbn [snd].
  rewrite Ht1, Ht3, Hc in *. cbn [snd] in *.
  rewrite !get_calls_app, !completion_calls_app, !writes_app, !parses_app.
  rewrite Hg2, Hw2, Hp2, Hcalls. repeat split; reflexivity.
Qed.

(** X19. No run of [scrape] sends more than one GET, makes more than
    two completion calls, writes more than one file or parses more than
    one page. *)
Theorem scrape_call_bounds self w :
  (length (get_calls (snd (scrape self w))) <= 1)%nat
  ∧ (length (completion_calls (snd (scrape self w))) <= 2)%nat
  ∧ (length (writes (snd (scrape self w))) <= 1)%nat
  ∧ (length (parses (snd (scrape self w))) <= 1)%nat.
Proof.
  rewrite scrape_unfold.
  destruct (safe_request_counts self w) as (fetched & t1 & -> & Hg1 & Hc1 & Hw1 & Hp1).
  destruct fetched as [[body|] status].
  - destruct (check_counts self body status w)
      as (verdict & t2 & -> & Hg2 & Hw2 & Hp2 & Hc2).
    destruct verdict.
    + cbn [snd].
      rewrite !get_calls_app, !completion_calls_app, !writes_app, !parses_app.
      rewrite Hc1, Hw1, Hp1, Hg2, Hw2, Hp2. simpl.
      rewrite !app_nil_r, ?length_app. simpl. repeat split; lia.
    + destruct (filesystem w _ body).
      * cbn [snd].
        rewrite !get_calls_app, !completion_calls_app, !writes_app, !parses_app.
        rewrite Hc1, Hw1, Hp1, Hg2, Hw2, Hp2. simpl.
        rewrite !app_nil_r, ?length_app. simpl. repeat split; lia.
      * destruct (extract_counts self body w)
          as (result & t3 & -> & Hp3 & Hg3 & Hw3 & Hc3).
        cbn [snd].
        rewrite !get_calls_app, !completion_calls_app, !writes_app, !parses_app.
        rewrite Hc1, Hw1, Hp1, Hg2, Hw2, Hp2. simpl.
        rewrite Hp3, Hg3, Hw3, ?app_nil_r, ?length_app. simpl. repeat split; lia.
  - cbn [snd]. rewrite Hc1, Hw1, Hp1. simpl. repeat split; lia.
Qed.

(** X20. When the fetch fails, or a heuristic matches the fetched page,
    [scrape] returns None and has called no service, written no file
    and parsed no page. *)
Theorem scrape_early_stop_spends_nothing self w :
  (∃ status, fst (_safe_request self w) = Ret (None, status))
  ∨ (∃ body status,
        fst (_safe_request self w) = Ret (Some body, status)
        ∧ heuristic_match body status) →
  fst (scrape self w) = Ret None
  ∧ completion_calls (snd (scrape self w)) = []
  ∧ writes (snd (scrape self w)) = []
  ∧ parses (snd (scrape self w)) = [].
Proof.
  intros Hstop. rewrite scrape_unfold.
  destruct (safe_request_counts self w) as (fetched & t1 & Hf & _ & Hc1 & Hw1 & Hp1).
  rewrite Hf in *. cbn [fst] in Hstop.
  destruct Hstop as [[status [= ->]] | (body & status & [= ->] & Hm)].
  - cbn [fst snd]. auto.
  - apply any_blocking_indicators in Hm. rewrite check_heuristic by assumption.
    cbn [fst snd].
    rewrite !completion_calls_app, !writes_app, !parses_app, Hc1, Hw1, Hp1.
    simpl. auto.
Qed.

(** ** [main] and [__init__] *)

(** X21. The test [if result:] of [main] tells a record from None: a
    record that [scrape] returns is never an empty dict, so it is never
    taken for a failure. *)
Theorem scrape_result_test self w result :
  fst (scrape self w) = Ret result →
  (result_truthy result = true ↔ ∃ r, result = Some r).
Proof.
  intros Hs. destruct result as [r|]; simpl.
  - split; [eauto | intros _].
    destruct (scrape_some_inv _ _ _ Hs) as (body & status & _ & _ & Hx).
    destruct (extract_some_inv _ _ _ _ Hx) as (? & ? & ? & d & _ & _ & _ & _ & ->).
    rewrite bool_decide_eq_false_2; [reflexivity |].
    intros Hempty. apply (f_equal (lookup "url")) in Hempty.
    rewrite lookup_insert_eq, lookup_empty in Hempty. discriminate.
  - split; [discriminate | intros [r Hr]; discriminate].
Qed.

Lemma append_assoc (a b c : string) : (a +:+ b) +:+ c = a +:+ (b +:+ c).
Proof. induction a as [|x a IH]; simpl; [reflexivity | now rewrite IH]. Qed.

Lemma split_head_prefix (sep s : string) : ∃ rest, s = split_head sep s +:+ rest.
Proof.
  induction s as [|c s IH]; simpl.
  - destruct (Str.starts_with sep ""); now exists "".
  - destruct (Str.starts_with sep (String c s)); [now exists (String c s) |].
    destruct IH as [rest E]. exists rest. simpl. now rewrite <- E.
Qed.

Lemma split_head_found (sep s : string) :
  Str.contains sep s = true → ∃ rest, s = split_head sep s +:+ sep +:+ rest.
Proof.
  induction s as [|c s IH]; simpl; intros Hc.
  - rewrite orb_false_r in Hc. rewrite Hc.
    apply starts_with_spec in Hc. destruct Hc as [r Hr]. now exists r.
  - destruct (Str.starts_with sep (String c s)) eqn:Hs.
    + apply starts_with_spec in Hs. destruct Hs as [r Hr]. now exists r.
    + simpl in Hc. destruct (IH Hc) as [rest E]. exists rest. simpl. now rewrite <- E.
Qed.

Lemma split_head_absent (sep s : string) :
  Str.contains sep s = false → split_head sep s = s.
Proof.
  induction s as [|c s IH]; simpl; intros Hc.
  - now destruct (Str.starts_with sep "").
  - apply orb_false_iff in Hc. destruct Hc as [Hs Hc]. rewrite Hs, IH; auto.
Qed.

Lemma split_head_clean (sep s : string) :
  sep ≠ "" → Str.contains sep (split_head sep s) = false.
Proof.
  intros Hsep.
  assert (Hnil : Str.starts_with sep "" = false) by (destruct sep; [congruence | reflexivity]).
  assert (Hempty : Str.contains sep "" = false) by (simpl; now rewrite Hnil).
  induction s as [|c s IH]; simpl.
  - now rewrite Hnil.
  - destruct (Str.starts_with sep (String c s)) eqn:Hs; [exact Hempty |].
    change (Str.contains sep (String c (split_head sep s)))
      with (Str.starts_with sep (String c (split_head sep s))
            || Str.contains sep (split_head sep s)).
    rewrite IH, orb_false_r.
    destruct (Str.starts_with sep (String c (split_head sep s))) eqn:Hb;
      [| reflexivity].
    apply starts_with_spec in Hb. destruct Hb as [r Hr].
    destruct (split_head_prefix sep s) as [rest E].
    assert (Hs' : Str.starts_with sep (String c s) = true).
    { apply starts_with_spec. exists (r +:+ rest).
      rewrite <- append_assoc, <- Hr. simpl. now rewrite <- E. }
    congruence.
Qed.

(** X22. The endpoint given to the client is the configured endpoint
    cut before its first "/openai/": it holds no "/openai/" any more,
    an endpoint without that segment is kept whole, what is cut off
    starts with the segment, and cutting twice changes nothing. *)
Theorem azure_endpoint_cut (endpoint : string) :
  Str.contains "/openai/" (azure_endpoint endpoint) = false
  ∧ (Str.contains "/openai/" endpoint = false → azure_endpoint endpoint = endpoint)
  ∧ (Str.contains "/openai/" endpoint = true →
     ∃ rest, endpoint = azure_endpoint endpoint +:+ "/openai/" +:+ rest)
  ∧ azure_endpoint (azure_endpoint endpoint) = azure_endpoint endpoint.
Proof.
  unfold azure_endpoint.
  assert (Hclean : Str.contains "/openai/" (split_head "/openai/" endpoint) = false)
    by (apply split_head_clean; discriminate).
  repeat split.
  - exact Hclean.
  - apply split_head_absent.
  - apply split_head_found.
  - now apply split_head_absent.
Qed.

End Further.

(** * The further properties on concrete runs *)

Section FurtherRuns.

#[local] Existing Instance Lite.libraries.

Lemma get_headers_user_agent_from_pool_witness :
  user_agents Run.scraper ≠ []
  ∧ ∃ ua, ua ∈ user_agents Run.scraper
          ∧ _get_headers Run.scraper Run.calm
            = (Ret [ ("User-Agent", ua);
                     ("Accept", "text/html,application/xhtml+xml,application/xml;q=0.9,*/*;q=0.8");
                     ("Accept-Language", "en-US,en;q=0.5");
                     ("Accept-Encoding", "gzip, deflate, br");
                     ("DNT", "1");
                     ("Connection", "keep-alive") ], []).
Proof.
  assert (Hne : user_agents Run.scraper ≠ []) by discriminate.
  split; [exact Hne |].
  exact (get_headers_user_agent_from_pool Run.scraper Run.calm Hne).
Defined.

Lemma safe_request_passes_response_witness :
  fst (_get_headers Run.scraper Run.server_error) = Ret Run.firefox_headers
  ∧ transport Run.server_error (url Run.scraper) Run.firefox_headers
    = inr (Run.server_error_page, 500%Z)
  ∧ _safe_request Run.scraper Run.server_error
    = (Ret (Some Run.server_error_page, 500%Z),
       [EvGet (url Run.scraper) Run.firefox_headers]).
Proof.
  assert (Hhd : fst (_get_headers Run.scraper Run.server_error) = Ret Run.firefox_headers).
  { vm_compute. reflexivity. }
  assert (Ht : transport Run.server_error (url Run.scraper) Run.firefox_headers
               = inr (Run.server_error_page, 500%Z)).
  { reflexivity. }
  split; [exact Hhd |]. split; [exact Ht |].
  exact (safe_request_passes_response Run.scraper Run.server_error _ _ _ Hhd Ht).
Defined.

Lemma check_non_object_reply_fails_open_witness :
  ¬ heuristic_match Run.page 200
  ∧ completion Run.classifier_array (deployment_name Run.scraper)
      (blocking_message Run.page) = inr Run.reply_array
  ∧ json_loads Run.reply_array = inr (JArr [])
  ∧ (∀ d, JArr [] ≠ JObj d)
  ∧ _check_for_blocking Run.scraper Run.page 200 Run.classifier_array
    = (Ret false,
       [ EvCompletion (deployment_name Run.scraper) (blocking_message Run.page);
         EvLog ERROR (LLMBlockingCheckError (AttributeError (JArr []) "get")) ]).
Proof.
  assert (Hn : ¬ heuristic_match Run.page 200).
  { apply no_match_of_indicators. vm_compute. reflexivity. }
  assert (Hc : completion Run.classifier_array (deployment_name Run.scraper)
                 (blocking_message Run.page) = inr Run.reply_array).
  { vm_compute. reflexivity. }
  assert (Hj : json_loads Run.reply_array = inr (JArr [])).
  { vm_compute. reflexivity. }
  assert (Hv : ∀ d, JArr [] ≠ JObj d).
  { intros d. discriminate. }
  repeat (split; [assumption |]).
  exact (check_non_object_reply_fails_open Run.scraper Run.page 200
           Run.classifier_array Run.reply_array (JArr []) Hn Hc Hj Hv).
Defined.

Lemma check_string_flag_blocks_witness :
  ¬ heuristic_match Run.page 200
  ∧ completion Run.classifier_says_string (deployment_name Run.scraper)
      (blocking_message Run.page) = inr Run.says_false_string
  ∧ json_loads Run.says_false_string = inr (JObj Run.fields_false_string)
  ∧ Run.fields_false_string !! "is_blocked" = Some (JStr "false")
  ∧ "false" ≠ ""
  ∧ _check_for_blocking Run.scraper Run.page 200 Run.classifier_says_string
    = (Ret true,
       [ EvCompletion (deployment_name Run.scraper) (blocking_message Run.page);
         EvLog ERROR (LLMDetectedBlocking (Run.fields_false_string !! "reason")) ]).
Proof.
  assert (Hn : ¬ heuristic_match Run.page 200).
  { apply no_match_of_indicators. vm_compute. reflexivity. }
  assert (Hc : completion Run.classifier_says_string (deployment_name Run.scraper)
                 (blocking_message Run.page) = inr Run.says_false_string).
  { vm_compute. reflexivity. }
  assert (Hj : json_loads Run.says_false_string = inr (JObj Run.fields_false_string)).
  { vm_compute. reflexivity. }
  assert (Hd : Run.fields_false_string !! "is_blocked" = Some (JStr "false")).
  { vm_compute. reflexivity. }
  assert (Hs : "false" ≠ "").
  { discriminate. }
  repeat (split; [assumption |]).
  exact (check_string_flag_blocks Run.scraper Run.page 200 Run.classifier_says_string
           Run.says_false_string Run.fields_false_string "false" Hn Hc Hj Hd Hs).
Defined.

Lemma extract_non_object_reply_gives_none_witness :
  soup_find_all ["price"; "prijs"; "amount"; "bedrag"] Run.page = inr []
  ∧ soup_find ["product"; "artikel"; "item"] Run.page = inr None
  ∧ completion Run.replies_array (deployment_name Run.scraper)
      (extraction_message (clean_html_of [] (product_section_of None)))
    = inr Run.reply_array
  ∧ json_loads Run.reply_array = inr (JArr [])
  ∧ (∀ d, JArr [] ≠ JObj d)
  ∧ _extract_data_with_llm Run.scraper Run.page Run.replies_array
    = (Ret None,
       [ EvSoup Run.page;
         EvCompletion (deployment_name Run.scraper)
           (extraction_message (clean_html_of [] (product_section_of None)));
         EvLog ERROR (LLMExtractionError (AttributeError (JArr []) "update")) ]).
Proof.
  assert (Hall : soup_find_all ["price"; "prijs"; "amount"; "bedrag"] Run.page = inr []).
  { vm_compute. reflexivity. }
  assert (Hfind : soup_find ["product"; "artikel"; "item"] Run.page = inr None).
  { vm_compute. reflexivity. }
  assert (Hc : completion Run.replies_array (deployment_name Run.scraper)
                 (extraction_message (clean_html_of [] (product_section_of None)))
               = inr Run.reply_array).
  { vm_compute. reflexivity. }
  assert (Hj : json_loads Run.reply_array = inr (JArr [])).
  { vm_compute. reflexivity. }
  assert (Hv : ∀ d, JArr [] ≠ JObj d).
  { intros d. discriminate. }
  repeat (split; [assumption |]).
  exact (extract_non_object_reply_gives_none Run.scraper Run.page Run.replies_array
           [] None Run.reply_array (JArr []) Hall Hfind Hc Hj Hv).
Defined.

Lemma extract_record_keys_witness :
  fst (_extract_data_with_llm Run.scraper Run.page Run.priced_free)
  = Ret (Some (Run.stamped Run.fields_free Run.noon))
  ∧ ∃ elems found content d,
      completion Run.priced_free (deployment_name Run.scraper)
        (extraction_message (clean_html_of elems (product_section_of found)))
      = inr content
      ∧ json_loads content = inr (JObj d)
      ∧ dom (Run.stamped Run.fields_free Run.noon) = {["url"; "timestamp"]} ∪ dom d.
Proof.
  assert (Hr : fst (_extract_data_with_llm Run.scraper Run.page Run.priced_free)
               = Ret (Some (Run.stamped Run.fields_free Run.noon))).
  { vm_compute. reflexivity. }
  split; [exact Hr |].
  exact (extract_record_keys Run.scraper Run.page Run.priced_free _ Hr).
Defined.

Lemma long_price_elements_crowd_out_product_witness :
  (3951 <= String.length (Str.join " " [Run.filler 3951]))%nat
  ∧ extraction_message (clean_html_of [Run.filler 3951] "<div>Shower gel</div>")
    = extraction_message (clean_html_of [Run.filler 3951] "None").
Proof.
  assert (Hlong : (3951 <= String.length (Str.join " " [Run.filler 3951]))%nat).
  { apply Nat.leb_le. vm_compute. reflexivity. }
  split; [exact Hlong |].
  exact (long_price_elements_crowd_out_product [Run.filler 3951]
           "<div>Shower gel</div>" "None" Hlong).
Defined.

Lemma scrape_success_calls_witness :
  fst (scrape Run.scraper Run.calm) = Ret (Some (Run.stamped Run.fields_ok Run.noon))
  ∧ ∃ hd body status elems found,
      fst (_get_headers Run.scraper Run.calm) = Ret hd
      ∧ transport Run.calm (url Run.scraper) hd = inr (body, status)
      ∧ soup_find_all ["price"; "prijs"; "amount"; "bedrag"] body = inr elems
      ∧ soup_find ["product"; "artikel"; "item"] body = inr found
      ∧ get_calls (snd (scrape Run.scraper Run.calm)) = [(url Run.scraper, hd)]
      ∧ completion_calls (snd (scrape Run.scraper Run.calm))
        = [ (deployment_name Run.scraper, blocking_message body);
            (deployment_name Run.scraper,
             extraction_message (clean_html_of elems (product_section_of found))) ]
      ∧ writes (snd (scrape Run.scraper Run.calm)) = [("last_response.html", body)]
      ∧ parses (snd (scrape Run.scraper Run.calm)) = [body].
Proof.
  assert (Hr : fst (scrape Run.scraper Run.calm)
               = Ret (Some (Run.stamped Run.fields_ok Run.noon))).
  { vm_compute. reflexivity. }
  split; [exact Hr |].
  exact (scrape_success_calls Run.scraper Run.calm _ Hr).
Defined.

Lemma scrape_early_stop_spends_nothing_witness :
  ((∃ status, fst (_safe_request Run.scraper Run.refused) = Ret (None, status))
   ∨ (∃ body status,
         fst (_safe_request Run.scraper Run.refused) = Ret (Some body, status)
         ∧ heuristic_match body status))
  ∧ fst (scrape Run.scraper Run.refused) = Ret None
  ∧ completion_calls (snd (scrape Run.scraper Run.refused)) = []
  ∧ writes (snd (scrape Run.scraper Run.refused)) = []
  ∧ parses (snd (scrape Run.scraper Run.refused)) = [].
Proof.
  assert (Hstop :
    (∃ status, fst (_safe_request Run.scraper Run.refused) = Ret (None, status))
    ∨ (∃ body status,
          fst (_safe_request Run.scraper Run.refused) = Ret (Some body, status)
          ∧ heuristic_match body status)).
  { right. exists Run.forbidden, 403%Z. split; [vm_compute; reflexivity |].
    left. reflexivity. }
  split; [exact Hstop |].
  exact (scrape_early_stop_spends_nothing Run.scraper Run.refused Hstop).
Defined.

Lemma scrape_result_test_witness :
  fst (scrape Run.scraper Run.calm) = Ret (Some (Run.stamped Run.fields_ok Run.noon))
  ∧ (result_truthy (Some (Run.stamped Run.fields_ok Run.noon)) = true
     ↔ ∃ r, Some (Run.stamped Run.fields_ok Run.noon) = Some r).
Proof.
  assert (Hr : fst (scrape Run.scraper Run.calm)
               = Ret (Some (Run.stamped Run.fields_ok Run.noon))).
  { vm_compute. reflexivity. }
  split; [exact Hr |].
  exact (scrape_result_test Run.scraper Run.calm _ Hr).
Defined.

End FurtherRuns.
